(** * av-sync: audio/video offset detection and alignment plan

    A shallow embedding of [main.py].  The script loads the audio of a video
    and a separately recorded audio track, zero-pads the shorter waveform,
    finds the lag that maximises their full cross-correlation, renders the lag
    and the track length as timecodes and then issues the ffmpeg commands that
    trim or pad the video.

    Modelling choices.
    - Samples are exact integers ([Z]).  Every finite array of binary
      floating-point samples is an integer array up to one common power-of-two
      scale, and the position of the largest correlation value does not depend
      on that scale.  The correlation itself is the exact sum that
      [scipy.signal.correlate(..., mode='full')] approximates through the FFT
      (the source names [np.correlate(audio1, audio2, mode='full')] as the
      slower equivalent).
    - [np.argmax] is the left-to-right scan that replaces the running maximum
      only by a strictly larger value.
    - The single floating-point operation of [format_time], the division
      [abs(frame) / sample_rate], is modelled as a correctly rounded binary64
      quotient, kept as an exact fraction; [divmod] and the [.3f] rendering
      are then exact operations on that fraction.
    - The main flow runs in a small state-and-exception monad over a world
      made of the set of existing paths and the trace of observable events. *)

From Stdlib Require Import ZArith Lia String Ascii DecimalString.
From stdpp Require Import gmap strings list.

Open Scope Z_scope.

(** ** Waveforms *)

Module Signal.

Definition waveform := list Z.

(** [np.pad(a, (before, after), 'constant')]: constant value 0. *)
Definition pad (a : waveform) (before after : nat) : waveform :=
  repeat 0 before ++ a ++ repeat 0 after.

(** [insert_padding]: the shorter waveform is extended at its end. *)
Definition insert_padding (audio1 audio2 : waveform) : waveform * waveform :=
  if (length audio2 <? length audio1)%nat
  then (audio1, pad audio2 0 (length audio1 - length audio2))
  else (pad audio1 0 (length audio2 - length audio1), audio2).

(** Sample [i] of a waveform, 0 outside its range (the convention of the
    full correlation). *)
Definition sample (a : waveform) (i : Z) : Z :=
  if i <? 0 then 0 else nth (Z.to_nat i) a 0.

(** [zsum f lo n] is [f lo + f (lo+1) + ... + f (lo+n-1)]. *)
Fixpoint zsum (f : Z -> Z) (lo : Z) (n : nat) : Z :=
  match n with
  | O => 0
  | S n' => f lo + zsum f (lo + 1) n'
  end.

(** Entry [k] of [correlate(in1, in2, mode='full')]:
    the sum over [l] of [in1[l] * in2[l - k + len(in2) - 1]]. *)
Definition corr_at (in1 in2 : waveform) (k : Z) : Z :=
  zsum (fun l => sample in1 l * sample in2 (l - k + Z.of_nat (length in2) - 1))
       0 (length in1).

(** [scipy.signal.correlate(in1, in2, mode='full', method='fft')]: empty when
    one input is empty, else [len(in1) + len(in2) - 1] entries. *)
Definition correlate (in1 in2 : waveform) : list Z :=
  match in1, in2 with
  | [], _ | _, [] => []
  | _, _ => map (fun k => corr_at in1 in2 (Z.of_nat k))
                (seq 0 (length in1 + length in2 - 1))
  end.

(** The scan of [np.argmax]: [best] at index [besti] is the largest value seen
    so far, [i] is the index of the head of [l]. *)
Fixpoint argmax_scan (l : list Z) (i : nat) (best : Z) (besti : nat) : nat :=
  match l with
  | [] => besti
  | v :: t =>
      if best <? v then argmax_scan t (S i) v i
      else argmax_scan t (S i) best besti
  end.

(** [np.argmax]; raises [ValueError] ([None]) on an empty array. *)
Definition argmax (l : list Z) : option nat :=
  match l with
  | [] => None
  | v :: t => Some (argmax_scan t 1 v 0)
  end.

(** [find_offset]. *)
Definition find_offset (audio1 audio2 : waveform) : option Z :=
  match argmax (correlate audio1 audio2) with
  | None => None
  | Some i => Some (Z.of_nat i - Z.of_nat (length audio2) + 1)
  end.

(** The lag as the main flow computes it, inline, on the two waveforms it got
    back from [insert_padding] (lines 91-93). *)
Definition main_lag (audio1 audio2 : waveform) : option Z :=
  let correlation := correlate audio1 audio2 in
  match argmax correlation with
  | None => None
  | Some i => Some (Z.of_nat i - Z.of_nat (length audio2) + 1)
  end.

(** [b] is [a] moved right by [k] samples inside the same window: sample [i]
    of the result is sample [i - k] of [a], zero where that falls outside. *)
Definition shift_right (k : Z) (a : waveform) : waveform :=
  map (fun i => sample a (Z.of_nat i - k)) (seq 0 (length a)).

(** The shift drops no non-zero sample. *)
Definition lossless (k : Z) (a : waveform) : Prop :=
  forall i, 0 <= i < Z.of_nat (length a) ->
            ~ (0 <= i + k < Z.of_nat (length a)) -> sample a i = 0.

Definition nonzero (a : waveform) : Prop := exists i, sample a i <> 0.

(** The correlation of a waveform with itself at lag [e]. *)
Definition autocorr (a : waveform) (e : Z) : Z :=
  zsum (fun l => sample a l * sample a (l - e)) 0 (length a).

(** Index [i] holds a value of [c] of the largest absolute value. *)
Definition max_magnitude_index (c : list Z) (i : nat) : Prop :=
  (i < length c)%nat /\
  forall j, (j < length c)%nat -> Z.abs (nth j c 0) <= Z.abs (nth i c 0).

(** Index [i] holds the largest value of [c], and is the first to. *)
Definition first_max_index (c : list Z) (i : nat) : Prop :=
  (i < length c)%nat /\
  (forall j, (j < length c)%nat -> nth j c 0 <= nth i c 0) /\
  (forall j, (j < i)%nat -> nth j c 0 < nth i c 0).

End Signal.

Import Signal.

(** ** Timecodes *)

Module Timecode.

(** A non-negative binary64 value, kept as the exact fraction [fnum / fden]
    (the denominator is a power of two). *)
Record frac := Frac { fnum : Z; fden : Z }.

(** [p / q] rounded to the nearest integer, ties to the even one. *)
Definition round_half_even (p q : Z) : Z :=
  let f := p / q in
  match (2 * (p mod q)) ?= q with
  | Lt => f
  | Gt => f + 1
  | Eq => if Z.even f then f else f + 1
  end.

(** [n / d] on integers [n >= 0], [d > 0]: the quotient correctly rounded to
    binary64 (53-bit significand [m], unit in the last place [2^e] with
    [-1074 <= e <= 971]); [None] is the [OverflowError] of a quotient too
    large for a float. *)
Definition b64_div (n d : Z) : option frac :=
  if n =? 0 then Some (Frac 0 1)
  else
    let e1 := Z.log2 n - Z.log2 d - 52 in
    let e2 := if n * 2 ^ Z.max 0 (- e1) <? 2 ^ 52 * (d * 2 ^ Z.max 0 e1)
              then e1 - 1 else e1 in
    let e := Z.max e2 (-1074) in
    let m := round_half_even (n * 2 ^ Z.max 0 (- e)) (d * 2 ^ Z.max 0 e) in
    if (971 <? e) || ((e =? 971) && (m =? 2 ^ 53)) then None
    else Some (Frac (m * 2 ^ Z.max 0 e) (2 ^ Z.max 0 (- e))).

(** Lines 37-39 (and again 105-107):
    [seconds = abs(frame) / sample_rate; m, s = divmod(seconds, 60);
     h, m = divmod(m, 60)].  On floats below [2^53] both [divmod]s are
    exact: the remainder is [fmod]'s and the quotient is a whole number
    that a float holds. *)
Definition clock (frame : Z) (sample_rate : positive) : option (Z * Z * frac) :=
  match b64_div (Z.abs frame) (Z.pos sample_rate) with
  | None => None
  | Some seconds =>
      let m := fnum seconds / (60 * fden seconds) in
      let s := Frac (fnum seconds mod (60 * fden seconds)) (fden seconds) in
      Some (m / 60, m mod 60, s)
  end.

(** [str(n)] on an integer. *)
Definition str (n : Z) : string := NilZero.string_of_int (Z.to_int n).

(** [s.zfill(w)] on a string of digits. *)
Definition zfill (w : nat) (s : string) : string :=
  string_of_list_ascii (repeat "0"%char (w - String.length s)) +:+ s.

(** The format [:02] on an integer: sign first, zeros up to width 2. *)
Definition fmt_02 (n : Z) : string :=
  if n <? 0 then "-" +:+ zfill 1 (str (- n)) else zfill 2 (str n).

(** The float [s] in milliseconds, rounded to nearest, ties to even. *)
Definition millis (s : frac) : Z := round_half_even (1000 * fnum s) (fden s).

(** The format [:06.3f] on a non-negative float: three decimals, rounded to
    nearest (ties to even), zeros up to width 6. *)
Definition fmt_06_3f (s : frac) : string :=
  let ms := millis s in
  zfill 6 (str (ms / 1000) +:+ "." +:+ zfill 3 (str (ms mod 1000))).

(** [format_time]. *)
Definition format_time (frame : Z) (sample_rate : positive) : option string :=
  match clock frame sample_rate with
  | None => None
  | Some (h, m, s) => Some (fmt_02 h +:+ ":" +:+ fmt_02 m +:+ ":" +:+ fmt_06_3f s)
  end.

End Timecode.

Import Timecode.

(** ** The main flow *)

Module Flow.

(** One entry of ffprobe's [streams]; the fields are read through [str]. *)
Record stream := Stream {
  codec_type : string;
  codec_name : string;
  profile : string;
  level : string;
  pix_fmt : string
}.

Record arguments := Arguments { video : string; audio : string; check : bool }.

Inductive exn :=
| ProbeError (msg : string)   (* the two [raise Exception] of get_stream_info *)
| AssertionError (msg : string)
| TypeError                   (* subscripting [None] *)
| ValueError                  (* [np.argmax] of an empty array *)
| OverflowError
| OSError                     (* the command could not be started *)
| FileNotFoundError (path : string).

(** What leaves a computation early: [sys.exit] or an exception. *)
Inductive abort := Exit (code : Z) | Raise (e : exn).

Inductive event :=
| Probe (path : string)       (* ffprobe was run on [path] *)
| Load (path : string)        (* the audio of [path] was decoded *)
| Makedirs (path : string)
| Print (line : string)
| Run (args : list string)
| TempWrite (name content : string)
| TempClose (name : string)
| Remove (path : string).

(** The paths that exist, and what the run did so far (oldest first). *)
Record world := World { files : gset string; trace : list event }.

(** How [subprocess.run(args)] ends: the command ran to its return code,
    having written its output file or not, or it could not be started.  The
    return code is not looked at ([check=True] is not passed). *)
Inductive proc := Completed (returncode : Z) (wrote : bool) | SpawnFailed.

(** Everything the script reaches outside itself. *)
Record env := Env {
  dirname : string -> string;
  basename : string -> string;
  splitext : string -> string * string;
  join : string -> string -> string;
  abspath : string -> string;
  (* [ffprobe -show_streams -of json path]: return code, stderr and the
     [streams] entry of the decoded output, when it has one *)
  ffprobe : string -> Z * string * option (list stream);
  ffmpeg : list string -> proc;
  (* [librosa.load(path, sr=44100)[0]] *)
  load : string -> waveform;
  temp_name : string
}.

Definition M (A : Type) : Type := world -> world * (abort + A).

Definition ret {A} (x : A) : M A := fun w => (w, inr x).
Definition bind {A B} (c : M A) (k : A -> M B) : M B :=
  fun w => match c w with
           | (w', inl a) => (w', inl a)
           | (w', inr x) => k x w'
           end.
Definition raise {A} (e : exn) : M A := fun w => (w, inl (Raise e)).
Definition sys_exit {A} (code : Z) : M A := fun w => (w, inl (Exit code)).
Definition emit (e : event) : M unit :=
  fun w => (World (files w) (trace w ++ [e]), inr tt).
Definition update_files (f : gset string -> gset string) : M unit :=
  fun w => (World (f (files w)) (trace w), inr tt).
Definition exists_file (path : string) : M bool :=
  fun w => (w, inr (bool_decide (path ∈ files w))).

Declare Scope flow_scope.
Delimit Scope flow_scope with flow.
Notation "x <- c ;; k" := (bind c (fun x => k))
  (at level 100, c at next level, right associativity) : flow_scope.
Notation "c ;;; k" := (bind c (fun _ => k))
  (at level 100, right associativity) : flow_scope.
Open Scope flow_scope.

(** An optional value that Python would fail on when absent. *)
Definition need {A} (o : option A) (e : exn) : M A :=
  match o with Some x => ret x | None => raise e end.

Definition assert (b : bool) (msg : string) : M unit :=
  if b then ret tt else raise (AssertionError msg).

Definition print (line : string) : M unit := emit (Print line).

(** [" ".join(words)]. *)
Definition unwords (words : list string) : string := String.concat " " words.

(** [os.makedirs(path, exist_ok=True)]. *)
Definition makedirs (path : string) : M unit :=
  emit (Makedirs path) ;;; update_files (fun fs => {[path]} ∪ fs).

(** The output file of the ffmpeg command lines below is their last word but
    one (the last is [-y]). *)
Definition output_of (args : list string) : string :=
  nth (length args - 2) args "".

(** [subprocess.run(args)]. *)
Definition subprocess_run (E : env) (args : list string) : M unit :=
  emit (Run args) ;;;
  match ffmpeg E args with
  | SpawnFailed => raise OSError
  | Completed _ wrote =>
      if wrote then update_files (fun fs => {[output_of args]} ∪ fs) else ret tt
  end.

(** [os.remove(path)]. *)
Definition os_remove (path : string) : M unit :=
  emit (Remove path) ;;;
  present <- exists_file path ;;
  if present then update_files (fun fs => fs ∖ {[path]})
  else raise (FileNotFoundError path).

(** [with tempfile.NamedTemporaryFile(...) as temp_file:] around a body that
    starts by writing and flushing [content]: the file is deleted when the
    block is left, also by an exception. *)
Definition with_temp_file {A} (E : env) (content : string)
    (body : string -> M A) : M A :=
  fun w =>
    let name := temp_name E in
    let w1 := World ({[name]} ∪ files w) (trace w ++ [TempWrite name content]) in
    let '(w2, r) := body name w1 in
    (World (files w2 ∖ {[name]}) (trace w2 ++ [TempClose name]), r).

(** The part of [get_stream_info] (lines 53-64) after ffprobe returned. *)
Definition select_streams (out : Z * string * option (list stream))
    : exn + (list stream * option stream * option stream) :=
  let '(returncode, stderr, streams) := out in
  if negb (returncode =? 0)
  then inl (ProbeError ("ffprobe encountered an error: " +:+ stderr))
  else
    match streams with
    | Some (s :: ss) =>
        let videos := filter (fun s => codec_type s = "video") (s :: ss) in
        let audios := filter (fun s => codec_type s = "audio") (s :: ss) in
        inr (s :: ss, head videos, head audios)
    | _ => inl (ProbeError "No video stream found")
    end.

(** [get_stream_info] (lines 43-64). *)
Definition get_stream_info (E : env) (video_path : string)
    : M (list stream * option stream * option stream) :=
  emit (Probe video_path) ;;;
  match select_streams (ffprobe E video_path) with
  | inl e => raise e
  | inr r => ret r
  end.

(** The sample rate [librosa.load] is asked for. *)
Definition sr : positive := 44100.

(** [load_audio]. *)
Definition load_audio (E : env) (filename : string) : M (waveform * positive) :=
  emit (Load filename) ;;; ret (load E filename, sr).

(** Lines 118-133: the command that renders the padding video. *)
Definition padding_command (a : arguments) (v : stream) (ss empty_video_path : string)
    : list string :=
  [ "ffmpeg"; "-i"; video a; "-f"; "lavfi"; "-i"; "aevalsrc=0|0:c=stereo";
    "-map"; "0:0"; "-map"; "1:0";
    "-filter_complex"; "tpad=start_duration=10000";
    "-t"; ss;
    "-c:v"; codec_name v; "-profile:v"; profile v; "-level:v"; level v;
    "-pix_fmt"; pix_fmt v;
    empty_video_path; "-y" ].

(** Lines 148-158: the command that concatenates and truncates. *)
Definition concat_command (list_file t out : string) : list string :=
  [ "ffmpeg"; "-safe"; "0"; "-f"; "concat"; "-i"; list_file; "-t"; t;
    "-c"; "copy"; "-movflags"; "faststart"; out; "-y" ].

(** Lines 165-174: the command that seeks and keeps. *)
Definition trim_command (a : arguments) (ss t out : string) : list string :=
  [ "ffmpeg"; "-ss"; ss; "-i"; video a; "-t"; t;
    "-c"; "copy"; "-movflags"; "faststart"; out; "-y" ].

(** Lines 137-142: the text of the concat list. *)
Definition concat_list (plist : list string) : string :=
  String.concat (String (ascii_of_nat 10) "")
                (map (fun x => "file '" +:+ x +:+ "'") plist)
  +:+ String (ascii_of_nat 10) "".

(** Lines 112-176: the edit, once the lag and both timecodes are known. *)
Definition align (E : env) (a : arguments) (video_stream : option stream)
    (dest_dir video_name ext output_name : string) (lag : Z) (ss t : string)
    : M unit :=
  if lag <? 0 then
    print "backward offset mode" ;;;
    let empty_video_path := join E dest_dir (video_name +:+ "_empty" +:+ ext) in
    let out_video_path := join E dest_dir (video_name +:+ "_out" +:+ ext) in
    v <- need video_stream TypeError ;;
    let ffmpeg_args := padding_command a v ss empty_video_path in
    print (unwords ffmpeg_args) ;;;
    subprocess_run E ffmpeg_args ;;;
    let plist := [abspath E empty_video_path; abspath E (video a)] in
    with_temp_file E (concat_list plist) (fun temp_file_name =>
      let ffmpeg_args :=
        concat_command temp_file_name t (join E dest_dir output_name) in
      print (unwords ffmpeg_args) ;;;
      subprocess_run E ffmpeg_args) ;;;
    os_remove empty_video_path
  else
    let ffmpeg_args := trim_command a ss t (join E dest_dir output_name) in
    print (unwords ffmpeg_args) ;;;
    subprocess_run E ffmpeg_args.

(** Lines 67-176: the script. *)
Definition main (E : env) (a : arguments) : M unit :=
  let dest_dir := join E (dirname E (video a)) "cut" in
  bind (get_stream_info E (video a)) (fun '(streams, video_stream, audio_stream) =>
  (if negb (check a) then
     makedirs dest_dir ;;;
     v <- need video_stream TypeError ;;
     assert (bool_decide (codec_name v = "h264"))
            "only support h264 for video codes" ;;;
     au <- need audio_stream TypeError ;;
     assert (bool_decide (codec_name au = "aac"))
            "only support aac for audio codes"
   else ret tt) ;;;
  bind (load_audio E (video a)) (fun '(audio1, sr) =>
  bind (load_audio E (audio a)) (fun '(audio2, sr) =>
  let raw_len := length audio2 in
  let '(audio1, audio2) := insert_padding audio1 audio2 in
  lag <- need (main_lag audio1 audio2) ValueError ;;
  print ("Offset: " +:+ str lag +:+ " " +:+ str (Z.pos sr)) ;;;
  ss <- need (format_time lag sr) OverflowError ;;
  t <- need (format_time (Z.of_nat raw_len) sr) OverflowError ;;
  print ss ;;;
  print t ;;;
  if check a then sys_exit 0
  else
    bind (need (clock lag sr) OverflowError) (fun '(h, m, s) =>
    let '(video_name, ext) := splitext E (basename E (video a)) in
    let output_name :=
      video_name +:+ "_" +:+ fmt_02 h +:+ "-" +:+ fmt_02 m +:+ "-"
                 +:+ fmt_06_3f s +:+ ext in
    print output_name ;;;
    align E a video_stream dest_dir video_name ext output_name lag ss t)))).

(** The status the process ends with. *)
Definition exit_code {A} (r : abort + A) : Z :=
  match r with
  | inr _ => 0
  | inl (Exit code) => code
  | inl (Raise _) => 1
  end.

Definition start (fs : gset string) : world := World fs [].

(** Events that leave the disk as it is. *)
Definition read_only (e : event) : bool :=
  match e with
  | Probe _ | Load _ | Print _ => true
  | _ => false
  end.

(** The values the script derives before it edits: the padded waveforms'
    lag, both timecodes and the name of the output file. *)
Record report := Report {
  r_lag : Z; r_ss : string; r_t : string; r_output_name : string
}.

Definition report_of (E : env) (a : arguments) : option report :=
  let audio1 := load E (video a) in
  let audio2 := load E (audio a) in
  let '(p1, p2) := insert_padding audio1 audio2 in
  match main_lag p1 p2 with
  | None => None
  | Some lag =>
      match format_time lag sr, format_time (Z.of_nat (length audio2)) sr,
            clock lag sr with
      | Some ss, Some t, Some (h, m, s) =>
          let '(video_name, ext) := splitext E (basename E (video a)) in
          Some (Report lag ss t
                  (video_name +:+ "_" +:+ fmt_02 h +:+ "-" +:+ fmt_02 m +:+ "-"
                              +:+ fmt_06_3f s +:+ ext))
      | _, _, _ => None
      end
  end.

(** The paths the script derives from the name of the video. *)
Definition dest_dir_of (E : env) (a : arguments) : string :=
  join E (dirname E (video a)) "cut".

Definition empty_video_path_of (E : env) (a : arguments) : string :=
  join E (dest_dir_of E a)
       (fst (splitext E (basename E (video a))) +:+ "_empty"
        +:+ snd (splitext E (basename E (video a)))).

(** The three command lines, on the values of the report. *)
Definition trim_of (E : env) (a : arguments) (r : report) : list string :=
  trim_command a (r_ss r) (r_t r) (join E (dest_dir_of E a) (r_output_name r)).

Definition padding_of (E : env) (a : arguments) (v : stream) (r : report)
    : list string :=
  padding_command a v (r_ss r) (empty_video_path_of E a).

Definition concat_of (E : env) (a : arguments) (r : report) : list string :=
  concat_command (temp_name E) (r_t r)
                 (join E (dest_dir_of E a) (r_output_name r)).

(** The trim-only plan: one stream-copy command that seeks by [ss] and keeps
    [t]. *)
Definition trim_plan (E : env) (a : arguments) (r : report) : list event :=
  [ Print (unwords (trim_of E a r)); Run (trim_of E a r) ].

(** The pad-and-concat plan: render the padding, write the concat list
    (padding first, then the video), concatenate and truncate to [t], drop
    the list, remove the padding. *)
Definition pad_plan (E : env) (a : arguments) (v : stream) (r : report)
    : list event :=
  [ Print "backward offset mode";
    Print (unwords (padding_of E a v r)); Run (padding_of E a v r);
    TempWrite (temp_name E)
      (concat_list [abspath E (empty_video_path_of E a); abspath E (video a)]);
    Print (unwords (concat_of E a r)); Run (concat_of E a r);
    TempClose (temp_name E);
    Remove (empty_video_path_of E a) ].

(** What the script does before it edits, outside check mode. *)
Definition prelude (E : env) (a : arguments) (r : report) : list event :=
  [ Probe (video a); Makedirs (dest_dir_of E a); Load (video a); Load (audio a);
    Print ("Offset: " +:+ str (r_lag r) +:+ " " +:+ str (Z.pos sr));
    Print (r_ss r); Print (r_t r); Print (r_output_name r) ].

(** The script got as far as the edit: not check mode, both codecs
    supported, and the report [r] computed. *)
Definition ready (E : env) (a : arguments) (v : stream) (r : report) : Prop :=
  check a = false /\
  (exists streams au,
     select_streams (ffprobe E (video a)) = inr (streams, Some v, Some au) /\
     codec_name v = "h264" /\ codec_name au = "aac") /\
  report_of E a = Some r.

(** What the script prints before it edits. *)
Definition report_lines (r : report) : list event :=
  [ Print ("Offset: " +:+ str (r_lag r) +:+ " " +:+ str (Z.pos sr));
    Print (r_ss r); Print (r_t r) ].

End Flow.

Import Flow.

(** ** A concrete environment *)

Module Demo.

(** [s] cut at the last [c]. *)
Fixpoint rsplit (c : ascii) (s : string) : option (string * string) :=
  match s with
  | EmptyString => None
  | String x r =>
      match rsplit c r with
      | Some (h, t) => Some (String x h, t)
      | None => if Ascii.eqb x c then Some (EmptyString, r) else None
      end
  end.

(** The functions of [os.path] as they act on plain absolute POSIX paths
    (no [.] or [..], no doubled or trailing slash). *)
Definition dirname (p : string) : string :=
  match rsplit "/" p with
  | Some (EmptyString, _) => "/"
  | Some (h, _) => h
  | None => ""
  end.

Definition basename (p : string) : string :=
  match rsplit "/" p with
  | Some (_, t) => t
  | None => p
  end.

Definition splitext (p : string) : string * string :=
  match rsplit "." p with
  | Some (EmptyString, _) | None => (p, "")
  | Some (h, t) => (h, "." +:+ t)
  end.

Definition join (a b : string) : string :=
  if String.prefix "/" b then b
  else if String.eqb a "" then b
  else a +:+ "/" +:+ b.

Definition abspath (p : string) : string :=
  if String.prefix "/" p then p else "/work/" +:+ p.

Definition h264 : stream := Stream "video" "h264" "High" "40" "yuv420p".
Definition hevc : stream := Stream "video" "hevc" "Main" "120" "yuv420p".
Definition aac : stream := Stream "audio" "aac" "LC" "None" "None".

(** A machine where ffprobe reports [streams], ffmpeg behaves as [run] says
    and the two files decode to [v] and [a]. *)
Definition machine (streams : list stream) (run : list string -> proc)
    (v a : waveform) : env :=
  Env dirname basename splitext join abspath
      (fun _ => (0, "", Some streams)) run
      (fun p => if String.eqb p "/media/clip.mp4" then v else a)
      "/tmp/tmpk3v9.txt".

Definition clip (check : bool) : arguments :=
  Arguments "/media/clip.mp4" "/media/take.wav" check.

(** Every command runs, returns 0 and writes its output. *)
Definition all_fine (args : list string) : proc := Completed 0 true.

(** The padding is rendered; the concat command (the one with [-safe])
    returns 1 without an output. *)
Definition concat_returns_1 (args : list string) : proc :=
  if bool_decide ("-safe" ∈ args) then Completed 1 false else Completed 0 true.

(** The padding is rendered; starting the concat command raises. *)
Definition concat_raises (args : list string) : proc :=
  if bool_decide ("-safe" ∈ args) then SpawnFailed else Completed 0 true.

(** The video's sound comes two samples late, or two samples early. *)
Definition late : waveform := [0; 0; 1; 0].
Definition early : waveform := [1; 0; 0; 0].

(** The reports of the runs on those two tracks; two samples at 44.1 kHz
    are below one millisecond. *)
Definition late_report : report :=
  Report 2 "00:00:00.000" "00:00:00.000" "clip_00-00-00.000.mp4".
Definition early_report : report :=
  Report (-2) "00:00:00.000" "00:00:00.000" "clip_00-00-00.000.mp4".

End Demo.


(** ** The footprint of a run *)




(** [o] is the first stream of [l] whose [codec_type] is [ty], or [None]
    when [l] has no such stream. *)
Definition first_with (ty : string) (l : list stream) (o : option stream) : Prop :=
  match o with
  | Some s =>
      exists pre post, l = pre ++ s :: post /\ codec_type s = ty /\
                       Forall (fun x => codec_type x <> ty) pre
  | None => Forall (fun x => codec_type x <> ty) l
  end.

(** A machine on which ffprobe fails with code 1. *)
Definition unreadable : env :=
  Env Demo.dirname Demo.basename Demo.splitext Demo.join Demo.abspath
      (fun _ => (1, "clip.mp4: No such file or directory", Some [Demo.h264]))
      Demo.all_fine (fun _ => Demo.late) "/tmp/tmpk3v9.txt".

(** Unfolding of the monad and of the script's own steps. *)
Ltac run_flow :=
  cbv [main get_stream_info load_audio makedirs print need assert
       subprocess_run os_remove with_temp_file exists_file update_files
       emit bind ret raise sys_exit start files trace].

(** * Properties *)

Example b64_div_third : b64_div 1 3 = Some (Frac 6004799503160661 (2 ^ 54)).
Proof. reflexivity. Qed.

Example format_time_quirk : format_time 2645983 44100 = Some "00:00:60.000".
Proof. vm_compute. reflexivity. Qed.

Example format_time_tie : format_time 1 16 = Some "00:00:00.062".
Proof. vm_compute. reflexivity. Qed.

Example format_time_hours : format_time (-44100 * 3661) 44100 = Some "01:01:01.000".
Proof. vm_compute. reflexivity. Qed.

(** The quotient is rounded to binary64 before it is rendered: 9/2000 and
    1001/2000 are not ties once they are floats. *)
Example format_time_float :
  format_time 9 2000 = Some "00:00:00.004" /\
  format_time 1001 2000 = Some "00:00:00.500" /\
  format_time 909925047 44100 = Some "05:43:53.221" /\
  format_time 144272509 16 = Some "2504:43:51.812".
Proof. vm_compute. repeat split. Qed.

Example format_time_big : format_time (44100 * 360000) 44100 = Some "100:00:00.000".
Proof. vm_compute. reflexivity. Qed.


Example correlate_impulse : correlate [1; 0] [0; 1] = [1; 0; 0].
Proof. reflexivity. Qed.

Example find_offset_impulse : find_offset [0; 0; 1; 0] [1; 0; 0; 0] = Some 2.
Proof. reflexivity. Qed.

(** ** Sums over a window *)

Section Sums.

Implicit Types (f g : Z -> Z) (lo : Z) (n : nat).

Lemma zsum_ext f g lo n :
  (forall i, lo <= i < lo + Z.of_nat n -> f i = g i) ->
  zsum f lo n = zsum g lo n.
Proof.
  revert lo; induction n as [|n IH]; intros lo H; simpl; [reflexivity|].
  rewrite H by lia. rewrite (IH (lo + 1)); [reflexivity|].
  intros i Hi. apply H. lia.
Qed.

Lemma zsum_app f lo n m :
  zsum f lo (n + m) = zsum f lo n + zsum f (lo + Z.of_nat n) m.
Proof.
  revert lo; induction n as [|n IH]; intros lo; simpl zsum.
  - replace (lo + Z.of_nat 0) with lo by lia. lia.
  - rewrite IH. replace (lo + 1 + Z.of_nat n) with (lo + Z.of_nat (S n)) by lia. lia.
Qed.

Lemma zsum_zero f lo n :
  (forall i, lo <= i < lo + Z.of_nat n -> f i = 0) -> zsum f lo n = 0.
Proof.
  revert lo; induction n as [|n IH]; intros lo H; simpl; [reflexivity|].
  rewrite H by lia. rewrite IH; [reflexivity|]. intros i Hi. apply H. lia.
Qed.

Lemma zsum_nonneg f lo n :
  (forall i, lo <= i < lo + Z.of_nat n -> 0 <= f i) -> 0 <= zsum f lo n.
Proof.
  revert lo; induction n as [|n IH]; intros lo H; simpl; [lia|].
  assert (0 <= f lo) by (apply H; lia).
  assert (0 <= zsum f (lo + 1) n) by (apply IH; intros i Hi; apply H; lia).
  lia.
Qed.

(** A sum of non-negative terms that is not positive has only zero terms. *)
Lemma zsum_nonneg_zero f lo n :
  (forall i, lo <= i < lo + Z.of_nat n -> 0 <= f i) ->
  zsum f lo n <= 0 ->
  forall i, lo <= i < lo + Z.of_nat n -> f i = 0.
Proof.
  revert lo; induction n as [|n IH]; intros lo H Hs i Hi; [lia|].
  simpl in Hs.
  assert (0 <= f lo) by (apply H; lia).
  assert (0 <= zsum f (lo + 1) n) by (apply zsum_nonneg; intros j Hj; apply H; lia).
  destruct (Z.eq_dec i lo) as [->|Hne]; [lia|].
  apply (IH (lo + 1)); [intros j Hj; apply H; lia | lia | lia].
Qed.

Lemma zsum_shift f c lo n :
  zsum (fun i => f (i + c)) lo n = zsum f (lo + c) n.
Proof.
  revert lo; induction n as [|n IH]; intros lo; simpl; [reflexivity|].
  rewrite IH. replace (lo + 1 + c) with (lo + c + 1) by lia. reflexivity.
Qed.

Lemma zsum_combine f g (a b : Z) lo n :
  zsum (fun i => a * f i + b * g i) lo n = a * zsum f lo n + b * zsum g lo n.
Proof.
  revert lo; induction n as [|n IH]; intros lo; simpl; [lia|].
  rewrite IH. lia.
Qed.

(** A function that vanishes outside [[a, a + n)] has the same sum over
    every window that contains it. *)
Lemma zsum_window f (a : Z) n lo m :
  (forall i, ~ (a <= i < a + Z.of_nat n) -> f i = 0) ->
  lo <= a -> a + Z.of_nat n <= lo + Z.of_nat m ->
  zsum f lo m = zsum f a n.
Proof.
  intros Hout Hlo Hhi.
  replace m with (Z.to_nat (a - lo) + (n + Z.to_nat (lo + Z.of_nat m - (a + Z.of_nat n))))%nat by lia.
  rewrite !zsum_app.
  rewrite (zsum_zero f lo) by (intros i Hi; apply Hout; lia).
  replace (lo + Z.of_nat (Z.to_nat (a - lo))) with a by lia.
  rewrite (zsum_zero f (a + Z.of_nat n)) by (intros i Hi; apply Hout; lia).
  lia.
Qed.

End Sums.

(** ** Samples *)

Lemma nth_map_seq {A} (f : nat -> A) (n i : nat) (d : A) :
  (i < n)%nat -> nth i (map f (seq 0 n)) d = f i.
Proof.
  intros Hi.
  rewrite (nth_indep _ d (f 0%nat)) by (rewrite length_map, length_seq; exact Hi).
  rewrite (map_nth f), seq_nth by exact Hi. reflexivity.
Qed.

Lemma sample_outside (a : waveform) i :
  ~ (0 <= i < Z.of_nat (length a)) -> sample a i = 0.
Proof.
  intros H. unfold sample. destruct (i <? 0) eqn:E; [reflexivity|].
  apply Z.ltb_ge in E. apply nth_overflow. lia.
Qed.

Lemma sample_nat (a : waveform) (i : nat) : sample a (Z.of_nat i) = nth i a 0.
Proof.
  unfold sample. destruct (Z.of_nat i <? 0) eqn:E; [apply Z.ltb_lt in E; lia|].
  rewrite Nat2Z.id. reflexivity.
Qed.

Lemma length_shift_right k (a : waveform) : length (shift_right k a) = length a.
Proof. unfold shift_right. rewrite length_map, length_seq. reflexivity. Qed.

Lemma sample_shift_right k (a : waveform) i :
  lossless k a -> sample (shift_right k a) i = sample a (i - k).
Proof.
  intros Hl.
  destruct (Z_lt_dec i 0) as [Hneg|Hpos];
    [|destruct (Z_lt_dec i (Z.of_nat (length a))) as [Hin|Hout]].
  - rewrite sample_outside by (rewrite length_shift_right; lia).
    destruct (Z_lt_dec (i - k) 0); [rewrite sample_outside by lia; reflexivity|].
    destruct (Z_lt_dec (i - k) (Z.of_nat (length a)));
      [|rewrite sample_outside by lia; reflexivity].
    symmetry. apply Hl; lia.
  - replace i with (Z.of_nat (Z.to_nat i)) at 1 by lia.
    rewrite sample_nat. unfold shift_right.
    rewrite nth_map_seq by lia. f_equal. lia.
  - rewrite sample_outside by (rewrite length_shift_right; lia).
    destruct (Z_lt_dec (i - k) 0); [rewrite sample_outside by lia; reflexivity|].
    destruct (Z_lt_dec (i - k) (Z.of_nat (length a)));
      [|rewrite sample_outside by lia; reflexivity].
    symmetry. apply Hl; lia.
Qed.

(** ** The correlation array *)

Lemma length_correlate (x y : waveform) :
  x <> [] -> y <> [] ->
  length (correlate x y) = (length x + length y - 1)%nat.
Proof.
  intros Hx Hy. destruct x as [|a x]; [congruence|]. destruct y as [|b y]; [congruence|].
  unfold correlate. rewrite length_map, length_seq. reflexivity.
Qed.

Lemma nth_correlate (x y : waveform) (k : nat) :
  x <> [] -> y <> [] ->
  (k < length x + length y - 1)%nat ->
  nth k (correlate x y) 0 = corr_at x y (Z.of_nat k).
Proof.
  intros Hx Hy Hk. destruct x as [|a x]; [congruence|].
  destruct y as [|b y]; [congruence|].
  unfold correlate. rewrite nth_map_seq by exact Hk. reflexivity.
Qed.

(** ** The scan of argmax *)

(** Invariant of the scan: [pre] is what was read, [best] sits at [besti],
    nothing read is larger and nothing before [besti] is as large. *)
Lemma argmax_scan_spec (l pre : list Z) (best : Z) (besti : nat) :
  (besti < length pre)%nat ->
  nth besti pre 0 = best ->
  (forall j, (j < length pre)%nat -> nth j pre 0 <= best) ->
  (forall j, (j < besti)%nat -> nth j pre 0 < best) ->
  let r := argmax_scan l (length pre) best besti in
  (r < length (pre ++ l))%nat /\
  (forall j, (j < length (pre ++ l))%nat -> nth j (pre ++ l) 0 <= nth r (pre ++ l) 0) /\
  (forall j, (j < r)%nat -> nth j (pre ++ l) 0 < nth r (pre ++ l) 0).
Proof.
  revert pre best besti. induction l as [|v t IH]; intros pre best besti Hb Hn Hle Hlt.
  - simpl. rewrite app_nil_r. rewrite Hn. auto.
  - simpl argmax_scan.
    replace (pre ++ v :: t) with ((pre ++ [v]) ++ t) by (rewrite <- app_assoc; reflexivity).
    replace (S (length pre)) with (length (pre ++ [v])) by (rewrite length_app; simpl; lia).
    destruct (best <? v) eqn:E.
    + apply Z.ltb_lt in E. apply IH.
      * rewrite length_app; simpl; lia.
      * rewrite app_nth2 by lia. rewrite Nat.sub_diag. reflexivity.
      * intros j Hj. rewrite length_app in Hj; simpl in Hj.
        destruct (Nat.eq_dec j (length pre)) as [->|Hne].
        -- rewrite app_nth2 by lia. rewrite Nat.sub_diag. simpl. lia.
        -- rewrite app_nth1 by lia. specialize (Hle j). lia.
      * intros j Hj. rewrite app_nth1 by lia. specialize (Hle j). lia.
    + apply Z.ltb_ge in E. apply IH.
      * rewrite length_app; simpl; lia.
      * rewrite app_nth1 by lia. exact Hn.
      * intros j Hj. rewrite length_app in Hj; simpl in Hj.
        destruct (Nat.eq_dec j (length pre)) as [->|Hne].
        -- rewrite app_nth2 by lia. rewrite Nat.sub_diag. simpl. lia.
        -- rewrite app_nth1 by lia. apply Hle. lia.
      * intros j Hj. rewrite app_nth1 by lia. apply Hlt. exact Hj.
Qed.

(** [argmax] returns an index of the largest value, and the first such. *)
Lemma argmax_spec (l : list Z) (r : nat) :
  argmax l = Some r ->
  (r < length l)%nat /\
  (forall j, (j < length l)%nat -> nth j l 0 <= nth r l 0) /\
  (forall j, (j < r)%nat -> nth j l 0 < nth r l 0).
Proof.
  destruct l as [|v t]; [discriminate|]. simpl. intros [= <-].
  apply (argmax_scan_spec t [v] v 0%nat); simpl; try lia; try reflexivity.
  intros j Hj. assert (j = 0%nat) as -> by lia. simpl. lia.
Qed.

Lemma argmax_some (l : list Z) : l <> [] -> exists r, argmax l = Some r.
Proof. destruct l; [congruence|]. intros _. eexists. reflexivity. Qed.

(** A value strictly above all others is the one [argmax] finds. *)
Lemma argmax_unique (l : list Z) (i : nat) :
  (i < length l)%nat ->
  (forall j, (j < length l)%nat -> j <> i -> nth j l 0 < nth i l 0) ->
  argmax l = Some i.
Proof.
  intros Hi Hmax.
  destruct (argmax_some l) as [r Hr]; [intros ->; simpl in Hi; lia|].
  destruct (argmax_spec l r Hr) as (Hrl & Hge & _).
  destruct (Nat.eq_dec r i) as [->|Hne]; [exact Hr|].
  specialize (Hmax r Hrl Hne). specialize (Hge i Hi). lia.
Qed.

(** ** Autocorrelation *)

(** A waveform that repeats with a non-zero period is silent. *)
Lemma periodic_zero (a : waveform) (e : Z) :
  e <> 0 ->
  (forall l, 0 <= l < Z.of_nat (length a) -> sample a l = sample a (l - e)) ->
  forall i, sample a i = 0.
Proof.
  intros He Hper.
  destruct (Z_lt_dec 0 e) as [Hpos|Hneg].
  - assert (H : forall n : nat, forall i, i < Z.of_nat n -> sample a i = 0).
    { induction n as [|n IH]; intros i Hi.
      - apply sample_outside. lia.
      - destruct (Z_lt_dec i 0); [apply sample_outside; lia|].
        destruct (Z_lt_dec i (Z.of_nat (length a))); [|apply sample_outside; lia].
        rewrite Hper by lia. apply IH. lia. }
    intros i. apply (H (Z.to_nat (i + 1))). lia.
  - assert (H : forall n : nat, forall i,
               Z.of_nat (length a) - Z.of_nat n <= i -> sample a i = 0).
    { induction n as [|n IH]; intros i Hi.
      - apply sample_outside. lia.
      - destruct (Z_lt_dec i 0); [apply sample_outside; lia|].
        destruct (Z_lt_dec i (Z.of_nat (length a))); [|apply sample_outside; lia].
        rewrite Hper by lia. apply IH. lia. }
    intros i. apply (H (Z.to_nat (Z.of_nat (length a) - i))). lia.
Qed.

(** The autocorrelation of a waveform that is not silent has its only
    maximum at lag 0. *)
Lemma autocorr_strict (a : waveform) (e : Z) :
  nonzero a -> e <> 0 -> autocorr a e < autocorr a 0.
Proof.
  intros [i0 Hi0] He.
  destruct (Z_lt_dec (autocorr a e) (autocorr a 0)) as [|Hge]; [assumption|].
  exfalso. apply Hi0. apply (periodic_zero a e He).
  set (N := length a) in *.
  set (lo := - Z.abs e). set (m := (N + 2 * Z.to_nat (Z.abs e))%nat).
  set (sq := fun l => sample a l * sample a l).
  set (cr := fun l => sample a l * sample a (l - e)).
  set (df := fun l => (sample a l - sample a (l - e)) * (sample a l - sample a (l - e))).
  assert (Hsq : zsum sq lo m = autocorr a 0).
  { unfold autocorr. rewrite (zsum_window sq 0 N lo m); try lia.
    - apply zsum_ext. intros l _. unfold sq. f_equal. f_equal. lia.
    - intros l Hl. unfold sq. rewrite sample_outside by (fold N; lia). lia. }
  assert (Hsq' : zsum (fun l => sq (l + - e)) lo m = autocorr a 0).
  { rewrite zsum_shift. unfold autocorr. rewrite (zsum_window sq 0 N (lo + - e) m); try lia.
    - apply zsum_ext. intros l _. unfold sq. f_equal. f_equal. lia.
    - intros l Hl. unfold sq. rewrite sample_outside by (fold N; lia). lia. }
  assert (Hcr : zsum cr lo m = autocorr a e).
  { unfold autocorr. rewrite (zsum_window cr 0 N lo m); try lia.
    - reflexivity.
    - intros l Hl. unfold cr. rewrite sample_outside by (fold N; lia). lia. }
  assert (Hdf : zsum df lo m = 2 * autocorr a 0 - 2 * autocorr a e).
  { rewrite (zsum_ext df (fun l => 1 * (1 * sq l + 1 * sq (l + - e)) + (-2) * cr l)).
    - rewrite zsum_combine, zsum_combine, Hsq, Hsq', Hcr. lia.
    - intros l _. unfold df, sq, cr. replace (l + - e) with (l - e) by lia. lia. }
  intros l Hl.
  assert (Hz : df l = 0).
  { apply (zsum_nonneg_zero df lo m).
    - intros j _. unfold df. apply Z.square_nonneg.
    - lia.
    - lia. }
  unfold df in Hz. apply Z.eq_mul_0 in Hz. lia.
Qed.

(** ** The correlation of a waveform with a shifted copy *)

Lemma corr_shift_l (a : waveform) (k idx : Z) :
  lossless k a ->
  corr_at a (shift_right k a) idx
  = autocorr a (idx - (Z.of_nat (length a) - 1) + k).
Proof.
  intros Hl. unfold corr_at, autocorr. apply zsum_ext. intros l _.
  rewrite sample_shift_right by exact Hl. rewrite length_shift_right.
  f_equal. f_equal. lia.
Qed.

Lemma corr_shift_r (a : waveform) (k idx : Z) :
  lossless k a ->
  corr_at (shift_right k a) a idx
  = autocorr a (idx - (Z.of_nat (length a) - 1) - k).
Proof.
  intros Hl. unfold corr_at, autocorr. rewrite length_shift_right.
  set (N := length a).
  set (e := idx - (Z.of_nat N - 1) - k).
  set (g := fun j => sample a j * sample a (j - e)).
  rewrite (zsum_ext _ (fun l => g (l + - k))).
  2:{ intros l _. unfold g. rewrite sample_shift_right by exact Hl.
      f_equal; f_equal; unfold e; lia. }
  rewrite zsum_shift.
  set (lo := - Z.abs k). set (m := (N + 2 * Z.to_nat (Z.abs k))%nat).
  transitivity (zsum g lo m).
  - symmetry. apply zsum_window; try lia.
    intros j Hj. unfold g.
    destruct (Z_lt_dec j 0); [rewrite sample_outside by lia; lia|].
    destruct (Z_lt_dec j (Z.of_nat (length a)));
      [|rewrite sample_outside by lia; lia].
    rewrite (Hl j) by (fold N; lia). lia.
  - apply zsum_window; try lia.
    intros j Hj. unfold g. rewrite sample_outside by (fold N; lia). lia.
Qed.

Lemma shift_in_range (a : waveform) (k : Z) :
  nonzero a -> lossless k a ->
  - Z.of_nat (length a) < k < Z.of_nat (length a).
Proof.
  intros [i Hi] Hl.
  destruct (Z_lt_dec i 0); [exfalso; apply Hi, sample_outside; lia|].
  destruct (Z_lt_dec i (Z.of_nat (length a)));
    [|exfalso; apply Hi, sample_outside; lia].
  destruct (Z_lt_dec (i + k) 0); [exfalso; apply Hi, Hl; lia|].
  destruct (Z_lt_dec (i + k) (Z.of_nat (length a))); [lia|].
  exfalso; apply Hi, Hl; lia.
Qed.

(** [find_offset] on two waveforms of one length [N > 0] whose correlation
    is, at every index, the autocorrelation of [a] at distance [d] from one
    index [N - 1 + d0]. *)
Lemma find_offset_peak (x y a : waveform) (d0 : Z) :
  nonzero a ->
  length x = length a -> length y = length a ->
  - Z.of_nat (length a) < d0 < Z.of_nat (length a) ->
  (forall idx, corr_at x y idx = autocorr a (idx - (Z.of_nat (length a) - 1) - d0)) ->
  find_offset x y = Some d0.
Proof.
  intros Hnz Hx Hy Hd Hc.
  assert (Hxn : x <> []) by (intros ->; simpl in Hx; lia).
  assert (Hyn : y <> []) by (intros ->; simpl in Hy; lia).
  unfold find_offset.
  rewrite (argmax_unique _ (Z.to_nat (Z.of_nat (length a) - 1 + d0))).
  - rewrite Hy. f_equal. lia.
  - rewrite length_correlate by assumption. lia.
  - rewrite length_correlate by assumption. intros j Hj Hne.
    rewrite !nth_correlate by (assumption || lia). rewrite !Hc.
    replace (Z.of_nat (Z.to_nat (Z.of_nat (length a) - 1 + d0))
             - (Z.of_nat (length a) - 1) - d0) with 0 by lia.
    apply autocorr_strict; [exact Hnz | lia].
Qed.

(** ** Claims on the offset estimator *)

(** C1 (as amended): for two waveforms of one length [N > 0] the correlation
    array has [2N - 1] entries, each the raw sum of products (nothing is
    normalised); [find_offset] returns [i - (N - 1)] for an index [i] whose
    value is the largest of the array, compared with its sign and not by
    absolute value. *)
Theorem find_offset_argmax (x y : waveform) (N : nat) :
  length x = N -> length y = N -> (0 < N)%nat ->
  exists i : nat,
    find_offset x y = Some (Z.of_nat i - (Z.of_nat N - 1)) /\
    length (correlate x y) = (2 * N - 1)%nat /\
    (i < 2 * N - 1)%nat /\
    (forall j, (j < 2 * N - 1)%nat ->
       nth j (correlate x y) 0 = corr_at x y (Z.of_nat j)) /\
    (forall j, (j < 2 * N - 1)%nat ->
       nth j (correlate x y) 0 <= nth i (correlate x y) 0).
Proof.
  intros Hx Hy HN.
  assert (Hxn : x <> []) by (intros ->; simpl in Hx; lia).
  assert (Hyn : y <> []) by (intros ->; simpl in Hy; lia).
  assert (Hlen : length (correlate x y) = (2 * N - 1)%nat)
    by (rewrite length_correlate by assumption; lia).
  destruct (argmax_some (correlate x y)) as [i Hi].
  { intros E. rewrite E in Hlen. simpl in Hlen. lia. }
  destruct (argmax_spec _ _ Hi) as (Hil & Hmax & _).
  exists i. unfold find_offset. rewrite Hi, Hy, Hlen in *.
  repeat split; try assumption.
  - f_equal. lia.
  - intros j Hj. apply nth_correlate; try assumption. lia.
Qed.

Lemma find_offset_argmax_witness :
  exists i : nat,
    find_offset [0; 0; 1; 0] [1; 0; 0; 0] = Some (Z.of_nat i - (Z.of_nat 4 - 1)) /\
    length (correlate [0; 0; 1; 0] [1; 0; 0; 0]) = (2 * 4 - 1)%nat /\
    (i < 2 * 4 - 1)%nat /\
    (forall j, (j < 2 * 4 - 1)%nat ->
       nth j (correlate [0; 0; 1; 0] [1; 0; 0; 0]) 0
       = corr_at [0; 0; 1; 0] [1; 0; 0; 0] (Z.of_nat j)) /\
    (forall j, (j < 2 * 4 - 1)%nat ->
       nth j (correlate [0; 0; 1; 0] [1; 0; 0; 0]) 0
       <= nth i (correlate [0; 0; 1; 0] [1; 0; 0; 0]) 0).
Proof.
  apply (find_offset_argmax [0; 0; 1; 0] [1; 0; 0; 0] 4); [reflexivity | reflexivity | lia].
Defined.

(** C1 (as stated) fails: on [[1; 0]] against [[-1; 0]] the correlation is
    [[0; -1; 0]]; the estimator picks index 0, whose magnitude 0 is below the
    magnitude 1 of index 1. *)
Lemma find_offset_not_max_magnitude :
  ~ exists i : nat,
      find_offset [1; 0] [-1; 0] = Some (Z.of_nat i - (2 - 1)) /\
      max_magnitude_index (correlate [1; 0] [-1; 0]) i.
Proof.
  intros (i & Hi & _ & Hmax).
  assert (E : find_offset [1; 0] [-1; 0] = Some (-1)) by reflexivity.
  rewrite E in Hi. assert (i = 0%nat) as -> by (injection Hi; lia).
  specialize (Hmax 1%nat). vm_compute in Hmax.
  apply Hmax; [lia | reflexivity].
Qed.

(** C2 (as amended): when [b] is [a] moved right by [k] samples (left for a
    negative [k]) with zero fill, [a] is not silent and the move drops no
    non-zero sample, the estimator returns [-k] for [(a, b)] and [k] for
    [(b, a)]: the lag is positive when the first waveform is the late one. *)
Theorem find_offset_shift (a : waveform) (k : Z) :
  nonzero a -> lossless k a ->
  find_offset a (shift_right k a) = Some (- k) /\
  find_offset (shift_right k a) a = Some k.
Proof.
  intros Hnz Hl. pose proof (shift_in_range a k Hnz Hl) as Hk. split.
  - apply (find_offset_peak _ _ a); try assumption; try reflexivity.
    + apply length_shift_right.
    + lia.
    + intros idx. rewrite corr_shift_l by exact Hl. f_equal. lia.
  - apply (find_offset_peak _ _ a); try assumption; try reflexivity.
    + apply length_shift_right.
    + intros idx. rewrite corr_shift_r by exact Hl. reflexivity.
Qed.

Lemma find_offset_shift_witness :
  nonzero [3; -1; 4; 0; 0] /\ lossless 2 [3; -1; 4; 0; 0] /\
  find_offset [3; -1; 4; 0; 0] (shift_right 2 [3; -1; 4; 0; 0]) = Some (- 2) /\
  find_offset (shift_right 2 [3; -1; 4; 0; 0]) [3; -1; 4; 0; 0] = Some 2.
Proof.
  assert (Hnz : nonzero [3; -1; 4; 0; 0]) by (exists 0; vm_compute; discriminate).
  assert (Hl : lossless 2 [3; -1; 4; 0; 0]).
  { intros i Hi Hout. change (Z.of_nat (length [3; -1; 4; 0; 0])) with 5 in *.
    assert (i = 3 \/ i = 4) as [-> | ->] by lia; reflexivity. }
  split; [exact Hnz | split; [exact Hl |]].
  apply (find_offset_shift [3; -1; 4; 0; 0] 2 Hnz Hl).
Defined.

(** C2 (as stated) fails: an impulse moved right by one sample gives lag
    [-1], not [1]. *)
Lemma shifted_impulse_lag :
  shift_right 1 [1; 0; 0] = [0; 1; 0] /\
  find_offset [1; 0; 0] (shift_right 1 [1; 0; 0]) <> Some 1.
Proof. split; [reflexivity | vm_compute; discriminate]. Qed.

(** Where the amended C2 stops: a silent waveform, and a move that drops a
    non-zero sample. *)
Example find_offset_silent : find_offset [0; 0; 0] (shift_right 0 [0; 0; 0]) = Some (-2).
Proof. reflexivity. Qed.

Example find_offset_lossy :
  shift_right 1 [1; 10; 10] = [0; 1; 10] /\
  find_offset [1; 10; 10] (shift_right 1 [1; 10; 10]) = Some 0.
Proof. split; reflexivity. Qed.



Example find_offset_tie : find_offset [1; 0; 1] [1; 0; 0] = Some 0.
Proof. reflexivity. Qed.

(** C4: of two waveforms of lengths [N1 < N2], in either argument order, the
    longer comes back unchanged and the shorter comes back with length [N2],
    its first [N1] samples as they were and [N2 - N1] zeros after them. *)
Theorem insert_padding_shorter (a b : waveform) :
  (length a < length b)%nat ->
  let padded := a ++ repeat 0 (length b - length a) in
  insert_padding a b = (padded, b) /\
  insert_padding b a = (b, padded) /\
  length padded = length b /\
  firstn (length a) padded = a /\
  skipn (length a) padded = repeat 0 (length b - length a).
Proof.
  intros Hlt padded. unfold insert_padding, pad.
  destruct (length b <? length a)%nat eqn:E1; [apply Nat.ltb_lt in E1; lia|].
  destruct (length a <? length b)%nat eqn:E2; [|apply Nat.ltb_ge in E2; lia].
  simpl. repeat split.
  - unfold padded. rewrite length_app, repeat_length. lia.
  - unfold padded. rewrite firstn_app, Nat.sub_diag, firstn_all. simpl. apply app_nil_r.
  - unfold padded. rewrite skipn_app, Nat.sub_diag, skipn_all. reflexivity.
Qed.

Lemma insert_padding_shorter_witness :
  insert_padding [5; 7] [1; 2; 3; 4] = ([5; 7; 0; 0], [1; 2; 3; 4]) /\
  insert_padding [1; 2; 3; 4] [5; 7] = ([1; 2; 3; 4], [5; 7; 0; 0]) /\
  length [5; 7; 0; 0] = length [1; 2; 3; 4] /\
  firstn (length [5; 7]) [5; 7; 0; 0] = [5; 7] /\
  skipn (length [5; 7]) [5; 7; 0; 0] = repeat 0 (length [1; 2; 3; 4] - length [5; 7]).
Proof.
  apply (insert_padding_shorter [5; 7] [1; 2; 3; 4]). simpl. lia.
Defined.

(** C10: the lag the main flow computes inline is the value of
    [find_offset] on the same two waveforms, in particular on what
    [insert_padding] returned. *)
Theorem main_lag_find_offset (audio1 audio2 : waveform) :
  main_lag audio1 audio2 = find_offset audio1 audio2 /\
  main_lag (fst (insert_padding audio1 audio2)) (snd (insert_padding audio1 audio2))
  = find_offset (fst (insert_padding audio1 audio2)) (snd (insert_padding audio1 audio2)).
Proof. split; reflexivity. Qed.

(** ** Timecodes *)

Lemma round_half_even_bounds (p q : Z) :
  p / q <= round_half_even p q <= p / q + 1.
Proof.
  unfold round_half_even.
  destruct (2 * (p mod q) ?= q); [destruct (Z.even (p / q))| |]; lia.
Qed.


(** The quotient of a sample count by a sample rate fits a float. *)
Lemma b64_div_some (n d : Z) :
  0 <= n < 2 ^ 1000 -> 0 < d ->
  exists q, b64_div n d = Some q /\ 0 <= fnum q /\ 0 < fden q.
Proof.
  intros Hn Hd. unfold b64_div.
  destruct (n =? 0) eqn:E0.
  { eexists. split; [reflexivity|]. simpl. lia. }
  apply Z.eqb_neq in E0.
  assert (Hln : Z.log2 n < 1000) by (apply Z.log2_lt_pow2; lia).
  pose proof (Z.log2_nonneg d) as Hld.
  set (e1 := Z.log2 n - Z.log2 d - 52).
  set (e2 := if n * 2 ^ Z.max 0 (- e1) <? 2 ^ 52 * (d * 2 ^ Z.max 0 e1) then e1 - 1 else e1).
  assert (He2 : e2 <= 947) by (unfold e2, e1; destruct (_ <? _); lia).
  set (e := Z.max e2 (-1074)).
  assert (He : e <= 947) by (unfold e; lia).
  set (m := round_half_even _ _).
  replace (971 <? e) with false by (symmetry; apply Z.ltb_ge; lia).
  replace (e =? 971) with false by (symmetry; apply Z.eqb_neq; lia).
  simpl. eexists. split; [reflexivity|]. simpl.
  assert (0 < 2 ^ Z.max 0 e) by (apply Z.pow_pos_nonneg; lia).
  assert (0 < 2 ^ Z.max 0 (- e)) by (apply Z.pow_pos_nonneg; lia).
  split; [|assumption].
  apply Z.mul_nonneg_nonneg; [|lia].
  pose proof (round_half_even_bounds (n * 2 ^ Z.max 0 (- e)) (d * 2 ^ Z.max 0 e)) as Hb.
  fold m in Hb.
  assert (0 <= n * 2 ^ Z.max 0 (- e) / (d * 2 ^ Z.max 0 e))
    by (apply Z.div_pos; nia).
  lia.
Qed.











(** ** The main flow *)

(** In non-check mode with the two supported codecs, the script gets to the
    edit with the directory made and the report printed. *)
Lemma main_reaches_align (E : env) (a : arguments) (fs : gset string)
    (streams : list stream) (v au : stream) (r : report) :
  check a = false ->
  select_streams (ffprobe E (video a)) = inr (streams, Some v, Some au) ->
  codec_name v = "h264" -> codec_name au = "aac" ->
  report_of E a = Some r ->
  main E a (start fs)
  = align E a (Some v) (dest_dir_of E a)
      (fst (splitext E (basename E (video a))))
      (snd (splitext E (basename E (video a))))
      (r_output_name r) (r_lag r) (r_ss r) (r_t r)
      (World ({[dest_dir_of E a]} ∪ fs) (prelude E a r)).
Proof.
  intros Hc Hsel Hv Hau Hr. unfold report_of in Hr. run_flow.
  rewrite Hsel, Hc. simpl negb. cbv iota.
  rewrite Hv, Hau. simpl.
  destruct (insert_padding (load E (video a)) (load E (audio a))) as [p1 p2].
  destruct (main_lag p1 p2) as [lag|]; [|discriminate].
  destruct (format_time lag sr) as [ss|]; [|discriminate].
  destruct (format_time (Z.of_nat (length (load E (audio a)))) sr) as [t|]; [|discriminate].
  destruct (clock lag sr) as [[[h m] s]|]; [|discriminate].
  destruct (splitext E (basename E (video a))) as [video_name ext].
  injection Hr as <-. reflexivity.
Qed.


(** The edit for a lag that is not negative. *)
Lemma align_trim (E : env) (a : arguments) (v : stream) (r : report) (w : world) :
  0 <= r_lag r ->
  trace (fst (align E a (Some v) (dest_dir_of E a)
                (fst (splitext E (basename E (video a))))
                (snd (splitext E (basename E (video a))))
                (r_output_name r) (r_lag r) (r_ss r) (r_t r) w))
  = trace w ++ trim_plan E a r.
Proof.
  intros Hlag. unfold align.
  destruct (r_lag r <? 0) eqn:E0; [apply Z.ltb_lt in E0; lia|].
  run_flow. fold (trim_of E a r). unfold trim_plan.
  destruct (ffmpeg E (trim_of E a r)) as [rc [|]|]; simpl;
    rewrite <- app_assoc; reflexivity.
Qed.

(** The edit for a negative lag: how far the plan gets, and what is left of
    the padding video. *)
Lemma align_pad (E : env) (a : arguments) (v : stream) (r : report) (w : world) :
  r_lag r < 0 ->
  let w' := fst (align E a (Some v) (dest_dir_of E a)
                   (fst (splitext E (basename E (video a))))
                   (snd (splitext E (basename E (video a))))
                   (r_output_name r) (r_lag r) (r_ss r) (r_t r) w) in
  exists n : nat,
    (3 <= n)%nat /\
    trace w' = trace w ++ firstn n (pad_plan E a v r) /\
    (ffmpeg E (padding_of E a v r) <> SpawnFailed ->
     ffmpeg E (concat_of E a r) <> SpawnFailed ->
     n = 8%nat /\ empty_video_path_of E a ∉ files w').
Proof.
  intros Hlag. unfold align.
  destruct (r_lag r <? 0) eqn:E0; [|apply Z.ltb_ge in E0; lia].
  run_flow.
  fold (dest_dir_of E a). fold (empty_video_path_of E a).
  fold (padding_of E a v r). fold (concat_of E a r).
  destruct (ffmpeg E (padding_of E a v r)) as [rc1 wr1|] eqn:Hp.
  2:{ exists 3%nat. simpl. split; [lia|]. split; [|congruence].
      rewrite <- !app_assoc. reflexivity. }
  destruct (ffmpeg E (concat_of E a r)) as [rc2 wr2|] eqn:Hc.
  2:{ exists 7%nat. destruct wr1; simpl; (split; [lia|]); (split; [|congruence]);
      rewrite <- !app_assoc; reflexivity. }
  exists 8%nat. split; [lia|].
  destruct wr1, wr2; simpl; case_bool_decide; simpl;
    (split; [rewrite <- !app_assoc; reflexivity|]);
    intros _ _; (split; [reflexivity|]);
    first [ assumption
          | apply not_elem_of_difference; right; apply elem_of_singleton; reflexivity ].
Qed.

Lemma length_insert_padding (a b : waveform) :
  length (fst (insert_padding a b)) = Nat.max (length a) (length b) /\
  length (snd (insert_padding a b)) = Nat.max (length a) (length b).
Proof.
  unfold insert_padding, pad.
  destruct (length b <? length a)%nat eqn:E;
    [apply Nat.ltb_lt in E | apply Nat.ltb_ge in E]; simpl;
    rewrite length_app, repeat_length; lia.
Qed.

(** The lag of two waveforms of one length [N > 0] lies within
    [-(N-1) .. N-1]. *)
Lemma main_lag_range (x y : waveform) :
  length x = length y -> (0 < length y)%nat ->
  exists lag, main_lag x y = Some lag /\ Z.abs lag < Z.of_nat (length y).
Proof.
  intros Hxy Hy.
  assert (Hxn : x <> []) by (intros ->; simpl in Hxy; lia).
  assert (Hyn : y <> []) by (intros ->; simpl in Hy; lia).
  pose proof (length_correlate x y Hxn Hyn) as Hlen.
  destruct (argmax_some (correlate x y)) as [i Hi].
  { intros E. rewrite E in Hlen. simpl in Hlen. lia. }
  destruct (argmax_spec _ _ Hi) as (Hil & _).
  unfold main_lag. rewrite Hi. eexists. split; [reflexivity|]. lia.
Qed.

(** The report exists as soon as one of the two tracks has a sample. *)
Lemma report_of_some (E : env) (a : arguments) :
  load E (video a) <> [] \/ load E (audio a) <> [] ->
  Z.of_nat (length (load E (video a))) < 2 ^ 53 ->
  Z.of_nat (length (load E (audio a))) < 2 ^ 53 ->
  exists r, report_of E a = Some r.
Proof.
  intros Hne Hv Ha. unfold report_of.
  pose proof (length_insert_padding (load E (video a)) (load E (audio a))) as [H1 H2].
  destruct (insert_padding (load E (video a)) (load E (audio a))) as [p1 p2].
  simpl in H1, H2.
  assert (Hpos : (0 < Nat.max (length (load E (video a))) (length (load E (audio a))))%nat).
  { destruct Hne as [Hne|Hne].
    - destruct (load E (video a)); [congruence | simpl; lia].
    - destruct (load E (audio a)); [congruence | simpl; lia]. }
  destruct (main_lag_range p1 p2) as (lag & Hlag & Hb); [lia | lia |].
  rewrite Hlag.
  assert (H53 : 2 ^ 53 < 2 ^ 1000) by reflexivity.
  assert (Hbl : 0 <= Z.abs lag < 2 ^ 1000) by lia.
  destruct (b64_div_some (Z.abs lag) (Z.pos sr) Hbl) as (q & Hq & _); [lia|].
  destruct (b64_div_some (Z.abs (Z.of_nat (length (load E (audio a))))) (Z.pos sr))
    as (q' & Hq' & _); [lia | lia |].
  unfold format_time, clock. rewrite Hq, Hq'.
  destruct (splitext E (basename E (video a))). eexists. reflexivity.
Qed.

(** ** Claims on the main flow *)


(** C9 (as amended): in a pad-and-concat run whose two commands return,
    whatever their return codes and whether or not they wrote their outputs,
    the padding video is rendered before the concat step, is the first entry
    of the list that step reads, and is removed after it: at the end of the
    run no file is left at its path. *)
Theorem padding_removed (E : env) (a : arguments) (fs : gset string)
    (v : stream) (r : report) (rc1 rc2 : Z) (wrote1 wrote2 : bool) :
  ready E a v r ->
  r_lag r < 0 ->
  ffmpeg E (padding_of E a v r) = Completed rc1 wrote1 ->
  ffmpeg E (concat_of E a r) = Completed rc2 wrote2 ->
  let w := fst (main E a (start fs)) in
  trace w = prelude E a r ++ pad_plan E a v r /\
  empty_video_path_of E a ∉ files w.
Proof.
  intros (Hc & (streams & au & Hsel & Hv & Hau) & Hr) Hlag Hp Hcc w.
  unfold w. rewrite (main_reaches_align E a fs streams v au r Hc Hsel Hv Hau Hr).
  destruct (align_pad E a v r (World ({[dest_dir_of E a]} ∪ fs) (prelude E a r)) Hlag)
    as (n & _ & Htr & Hall).
  destruct Hall as [-> Hgone]; [congruence | congruence |].
  split; [exact Htr | exact Hgone].
Qed.

Lemma demo_ready (run : list string -> proc) (x y : waveform) (r : report) :
  report_of (Demo.machine [Demo.h264; Demo.aac] run x y) (Demo.clip false) = Some r ->
  ready (Demo.machine [Demo.h264; Demo.aac] run x y) (Demo.clip false) Demo.h264 r.
Proof.
  intros Hr. split; [reflexivity|]. split; [|exact Hr].
  exists [Demo.h264; Demo.aac], Demo.aac. repeat split; reflexivity.
Qed.


Lemma padding_removed_witness :
  ready (Demo.machine [Demo.h264; Demo.aac] Demo.concat_returns_1 Demo.early Demo.late)
        (Demo.clip false) Demo.h264 Demo.early_report /\
  r_lag Demo.early_report < 0 /\
  empty_video_path_of
    (Demo.machine [Demo.h264; Demo.aac] Demo.concat_returns_1 Demo.early Demo.late)
    (Demo.clip false) = "/media/cut/clip_empty.mp4" /\
  "/media/cut/clip_empty.mp4"
  ∉ files (fst (main (Demo.machine [Demo.h264; Demo.aac] Demo.concat_returns_1
                         Demo.early Demo.late)
                     (Demo.clip false) (start ∅))).
Proof.
  assert (Hr : ready (Demo.machine [Demo.h264; Demo.aac] Demo.concat_returns_1
                        Demo.early Demo.late)
                     (Demo.clip false) Demo.h264 Demo.early_report)
    by (apply demo_ready; vm_compute; reflexivity).
  split; [exact Hr|]. split; [vm_compute; reflexivity|]. split; [vm_compute; reflexivity|].
  apply (proj2 (padding_removed _ _ ∅ _ _ 0 1 true false Hr
                  ltac:(vm_compute; reflexivity)
                  ltac:(vm_compute; reflexivity)
                  ltac:(vm_compute; reflexivity))).
Defined.

(** C9 (as stated) fails: when starting the concat command raises, the
    script ends on that exception with the padding video still on disk. *)
Lemma padding_left_behind :
  report_of (Demo.machine [Demo.h264; Demo.aac] Demo.concat_raises Demo.early Demo.late)
            (Demo.clip false) = Some Demo.early_report /\
  r_lag Demo.early_report < 0 /\
  snd (main (Demo.machine [Demo.h264; Demo.aac] Demo.concat_raises Demo.early Demo.late)
            (Demo.clip false) (start ∅)) = inl (Raise OSError) /\
  "/media/cut/clip_empty.mp4"
  ∈ files (fst (main (Demo.machine [Demo.h264; Demo.aac] Demo.concat_raises
                        Demo.early Demo.late)
                    (Demo.clip false) (start ∅))).
Proof.
  split; [vm_compute; reflexivity|]. split; [vm_compute; reflexivity|].
  split; [vm_compute; reflexivity|].
  apply (bool_decide_unpack _). vm_compute. exact I.
Qed.

(** Check mode, with streams probed and the report computed: three lines
    are printed and the script exits with 0. *)
Lemma main_check_run (E : env) (a : arguments) (fs : gset string)
    (x : list stream * option stream * option stream) (r : report) :
  check a = true ->
  select_streams (ffprobe E (video a)) = inr x ->
  report_of E a = Some r ->
  main E a (start fs)
  = (World fs ([Probe (video a); Load (video a); Load (audio a)] ++ report_lines r),
     inl (Exit 0)).
Proof.
  intros Hc Hsel Hr. unfold report_of in Hr. run_flow.
  rewrite Hsel, Hc. destruct x as [[streams vs] aus]. simpl.
  destruct (insert_padding (load E (video a)) (load E (audio a))) as [p1 p2].
  destruct (main_lag p1 p2) as [lag|]; [|discriminate].
  destruct (format_time lag sr) as [ss|]; [|discriminate].
  destruct (format_time (Z.of_nat (length (load E (audio a)))) sr) as [t|]; [|discriminate].
  destruct (clock lag sr) as [[[h m] s]|]; [|discriminate].
  destruct (splitext E (basename E (video a))) as [video_name ext].
  injection Hr as <-. reflexivity.
Qed.

(** Check mode, however the run ends: the disk is as it was, every event is
    a probe, a load or a print, and no assertion failed. *)
Lemma main_check_read_only (E : env) (a : arguments) (fs : gset string) :
  check a = true ->
  files (fst (main E a (start fs))) = fs /\
  forallb read_only (trace (fst (main E a (start fs)))) = true /\
  forall msg, snd (main E a (start fs)) <> inl (Raise (AssertionError msg)).
Proof.
  intros Hc. run_flow. rewrite Hc.
  destruct (select_streams (ffprobe E (video a))) as [e|[[streams vs] aus]] eqn:Hsel; simpl.
  { repeat split. intros msg [= ->]. revert Hsel.
    unfold select_streams. destruct (ffprobe E (video a)) as [[rc err] [[|s0 ss]|]];
      destruct (negb (rc =? 0)); discriminate. }
  destruct (insert_padding (load E (video a)) (load E (audio a))) as [p1 p2].
  destruct (main_lag p1 p2) as [lag|]; simpl; [|repeat split; discriminate].
  destruct (format_time lag sr) as [ss|]; simpl; [|repeat split; discriminate].
  destruct (format_time (Z.of_nat (length (load E (audio a)))) sr) as [t|]; simpl;
    repeat split; discriminate.
Qed.

(** C7 (as amended): outside check mode, a video codec other than h264 or
    an audio codec other than aac ends the run on a failed assertion, after
    the destination directory was made and before anything else: no track is
    loaded, no file written, no command run.  In check mode the codecs are
    not looked at and no assertion fails. *)
Theorem codec_gate (E : env) (a : arguments) (fs : gset string) :
  (check a = false ->
   forall streams v au,
     select_streams (ffprobe E (video a)) = inr (streams, Some v, Some au) ->
     codec_name v <> "h264" \/ codec_name au <> "aac" ->
     main E a (start fs)
     = (World ({[dest_dir_of E a]} ∪ fs)
              [Probe (video a); Makedirs (dest_dir_of E a)],
        inl (Raise (AssertionError
                      (if bool_decide (codec_name v = "h264")
                       then "only support aac for audio codes"
                       else "only support h264 for video codes"))))) /\
  (check a = true ->
   forall msg, snd (main E a (start fs)) <> inl (Raise (AssertionError msg))).
Proof.
  split.
  - intros Hc streams v au Hsel Hbad. run_flow. rewrite Hsel, Hc. simpl.
    fold (dest_dir_of E a).
    destruct (bool_decide (codec_name v = "h264")) eqn:Ev; simpl; [|reflexivity].
    destruct (bool_decide (codec_name au = "aac")) eqn:Ea; simpl; [|reflexivity].
    apply bool_decide_eq_true in Ev. apply bool_decide_eq_true in Ea.
    destruct Hbad; contradiction.
  - intros Hc. apply (main_check_read_only E a fs Hc).
Qed.

Lemma codec_gate_witness :
  check (Demo.clip false) = false /\
  select_streams
    (ffprobe (Demo.machine [Demo.hevc; Demo.aac] Demo.all_fine Demo.late Demo.early)
             (video (Demo.clip false)))
  = inr ([Demo.hevc; Demo.aac], Some Demo.hevc, Some Demo.aac) /\
  codec_name Demo.hevc <> "h264" /\
  main (Demo.machine [Demo.hevc; Demo.aac] Demo.all_fine Demo.late Demo.early)
       (Demo.clip false) (start ∅)
  = (World ({["/media/cut"]} ∪ ∅) [Probe "/media/clip.mp4"; Makedirs "/media/cut"],
     inl (Raise (AssertionError "only support h264 for video codes"))) /\
  check (Demo.clip true) = true /\
  forall msg,
    snd (main (Demo.machine [Demo.hevc; Demo.aac] Demo.all_fine Demo.late Demo.early)
              (Demo.clip true) (start ∅))
    <> inl (Raise (AssertionError msg)).
Proof.
  split; [reflexivity|]. split; [reflexivity|].
  assert (Hne : codec_name Demo.hevc <> "h264") by (vm_compute; discriminate).
  split; [exact Hne|]. split.
  - apply (proj1 (codec_gate
                    (Demo.machine [Demo.hevc; Demo.aac] Demo.all_fine Demo.late Demo.early)
                    (Demo.clip false) ∅)
                 eq_refl [Demo.hevc; Demo.aac] Demo.hevc Demo.aac eq_refl (or_introl Hne)).
  - split; [reflexivity|].
    apply (proj2 (codec_gate
                    (Demo.machine [Demo.hevc; Demo.aac] Demo.all_fine Demo.late Demo.early)
                    (Demo.clip true) ∅)
                 eq_refl).
Defined.

(** C7 (as stated) fails: with an hevc video outside check mode the
    assertion fails once [os.makedirs] has run; the directory exists when
    the run ends, on a disk that was empty. *)
Lemma codec_error_after_makedirs :
  snd (main (Demo.machine [Demo.hevc; Demo.aac] Demo.all_fine Demo.late Demo.early)
            (Demo.clip false) (start ∅))
  = inl (Raise (AssertionError "only support h264 for video codes")) /\
  trace (fst (main (Demo.machine [Demo.hevc; Demo.aac] Demo.all_fine Demo.late Demo.early)
                   (Demo.clip false) (start ∅)))
  = [Probe "/media/clip.mp4"; Makedirs "/media/cut"] /\
  "/media/cut"
  ∈ files (fst (main (Demo.machine [Demo.hevc; Demo.aac] Demo.all_fine Demo.late Demo.early)
                    (Demo.clip false) (start ∅))).
Proof.
  split; [vm_compute; reflexivity|]. split; [vm_compute; reflexivity|].
  apply (bool_decide_unpack _). vm_compute. exact I.
Qed.

(** C8: in check mode nothing is written, whatever happens: the set of
    existing paths is unchanged and the run consists of the probe, the two
    loads and prints (no directory made, no command run, no file written or
    removed), and no codec assertion fails.  With streams probed and a
    track that has a sample, the lag and the two timecodes are printed and
    the script exits with code 0. *)
Theorem check_only (E : env) (a : arguments) (fs : gset string) :
  check a = true ->
  files (fst (main E a (start fs))) = fs /\
  forallb read_only (trace (fst (main E a (start fs)))) = true /\
  (forall msg, snd (main E a (start fs)) <> inl (Raise (AssertionError msg))) /\
  (forall x,
     select_streams (ffprobe E (video a)) = inr x ->
     load E (video a) <> [] \/ load E (audio a) <> [] ->
     Z.of_nat (length (load E (video a))) < 2 ^ 53 ->
     Z.of_nat (length (load E (audio a))) < 2 ^ 53 ->
     exists r,
       report_of E a = Some r /\
       main E a (start fs)
       = (World fs ([Probe (video a); Load (video a); Load (audio a)]
                    ++ report_lines r),
          inl (Exit 0)) /\
       exit_code (snd (main E a (start fs))) = 0).
Proof.
  intros Hc. destruct (main_check_read_only E a fs Hc) as (Hf & Hro & Hna).
  split; [exact Hf|]. split; [exact Hro|]. split; [exact Hna|].
  intros x Hsel Hne Hv Ha.
  destruct (report_of_some E a Hne Hv Ha) as [r Hr].
  exists r. split; [exact Hr|].
  rewrite (main_check_run E a fs x r Hc Hsel Hr). split; reflexivity.
Qed.

Lemma check_only_witness :
  check (Demo.clip true) = true /\
  main (Demo.machine [Demo.hevc; Demo.aac] Demo.all_fine Demo.late Demo.early)
       (Demo.clip true) (start {["/media/clip.mp4"; "/media/take.wav"]})
  = (World {["/media/clip.mp4"; "/media/take.wav"]}
       [Probe "/media/clip.mp4"; Load "/media/clip.mp4"; Load "/media/take.wav";
        Print "Offset: 2 44100"; Print "00:00:00.000"; Print "00:00:00.000"],
     inl (Exit 0)).
Proof.
  split; [reflexivity|].
  assert (H1 : load (Demo.machine [Demo.hevc; Demo.aac] Demo.all_fine Demo.late Demo.early) (video (Demo.clip true)) <> []) by (vm_compute; discriminate).
  assert (H2 : Z.of_nat (length (load (Demo.machine [Demo.hevc; Demo.aac] Demo.all_fine Demo.late Demo.early) (video (Demo.clip true)))) < 2 ^ 53) by (vm_compute; reflexivity).
  assert (H3 : Z.of_nat (length (load (Demo.machine [Demo.hevc; Demo.aac] Demo.all_fine Demo.late Demo.early) (audio (Demo.clip true)))) < 2 ^ 53) by (vm_compute; reflexivity).
  pose proof (proj2 (proj2 (proj2
              (check_only
                 (Demo.machine [Demo.hevc; Demo.aac] Demo.all_fine Demo.late Demo.early)
                 (Demo.clip true) {["/media/clip.mp4"; "/media/take.wav"]} eq_refl)))
              ([Demo.hevc; Demo.aac], Some Demo.hevc, Some Demo.aac) eq_refl
              (or_introl H1) H2 H3) as H.
  destruct H as (r & Hr & Hmain & _).
  assert (Hr' : report_of
                        (Demo.machine [Demo.hevc; Demo.aac] Demo.all_fine Demo.late Demo.early)
                        (Demo.clip true) = Some Demo.late_report)
          by (vm_compute; reflexivity).
  assert (r = Demo.late_report) as -> by congruence.
  exact Hmain.
Defined.

(** * Further properties *)

(** ** Padding *)

(** X1: whatever the two lengths, [insert_padding] returns each waveform
    followed by as many zeros as it lacks to the longer length; both results
    have that length. *)
Theorem insert_padding_shape (a b : waveform) :
  let n := Nat.max (length a) (length b) in
  insert_padding a b
  = (a ++ repeat 0 (n - length a), b ++ repeat 0 (n - length b)) /\
  length (fst (insert_padding a b)) = n /\
  length (snd (insert_padding a b)) = n.
Proof.
  intros n. split; [|apply length_insert_padding].
  unfold insert_padding, pad, n.
  destruct (length b <? length a)%nat eqn:E;
    [apply Nat.ltb_lt in E | apply Nat.ltb_ge in E]; simpl.
  - replace (Nat.max (length a) (length b) - length a)%nat with 0%nat by lia.
    replace (Nat.max (length a) (length b) - length b)%nat
      with (length a - length b)%nat by lia.
    simpl. rewrite app_nil_r. reflexivity.
  - replace (Nat.max (length a) (length b) - length b)%nat with 0%nat by lia.
    replace (Nat.max (length a) (length b) - length a)%nat
      with (length b - length a)%nat by lia.
    simpl. rewrite app_nil_r. reflexivity.
Qed.

(** X2: waveforms of one length come back as they are, so padding twice is
    padding once. *)
Theorem insert_padding_idempotent (a b : waveform) :
  (length a = length b -> insert_padding a b = (a, b)) /\
  insert_padding (fst (insert_padding a b)) (snd (insert_padding a b))
  = insert_padding a b.
Proof.
  assert (Heq : forall x y : waveform, length x = length y -> insert_padding x y = (x, y)).
  { intros x y H. unfold insert_padding, pad. rewrite H, Nat.ltb_irrefl, Nat.sub_diag.
    simpl. rewrite app_nil_r. reflexivity. }
  split; [apply Heq|].
  destruct (length_insert_padding a b) as [H1 H2].
  rewrite Heq by congruence. destruct (insert_padding a b); reflexivity.
Qed.

Lemma insert_padding_idempotent_witness :
  length [1; 2; 3] = length [4; 5; 6] /\
  insert_padding [1; 2; 3] [4; 5; 6] = ([1; 2; 3], [4; 5; 6]).
Proof.
  split; [reflexivity|].
  apply (proj1 (insert_padding_idempotent [1; 2; 3] [4; 5; 6])). reflexivity.
Defined.

(** ** The estimator at its edges *)

Lemma correlate_nil_iff (x y : waveform) : correlate x y = [] <-> x = [] \/ y = [].
Proof.
  split.
  - intros H. destruct x as [|a x]; [auto|]. destruct y as [|b y]; [auto|].
    pose proof (length_correlate (a :: x) (b :: y) ltac:(discriminate) ltac:(discriminate)) as Hl.
    rewrite H in Hl. simpl in Hl. lia.
  - intros [-> | ->]; [reflexivity | destruct x; reflexivity].
Qed.


(** X4: on waveforms that are not empty the lag lies between
    [-(len(audio2) - 1)] and [len(audio1) - 1]. *)
Theorem find_offset_range (x y : waveform) :
  x <> [] -> y <> [] ->
  exists lag, find_offset x y = Some lag /\
              - (Z.of_nat (length y) - 1) <= lag <= Z.of_nat (length x) - 1.
Proof.
  intros Hx Hy. pose proof (length_correlate x y Hx Hy) as Hlen.
  destruct (argmax_some (correlate x y)) as [i Hi].
  { rewrite correlate_nil_iff. tauto. }
  destruct (argmax_spec _ _ Hi) as (Hil & _).
  unfold find_offset. rewrite Hi. eexists. split; [reflexivity|].
  destruct x; [congruence|]. destruct y; [congruence|]. simpl length in *. lia.
Qed.

Lemma find_offset_range_witness :
  exists lag, find_offset [1; 2; 3] [0; 5] = Some lag /\
              - (Z.of_nat (length [0; 5]) - 1) <= lag <= Z.of_nat (length [1; 2; 3]) - 1.
Proof. apply (find_offset_range [1; 2; 3] [0; 5]); discriminate. Defined.

(** The first index that holds the largest value is what [argmax] returns. *)
Lemma argmax_first_max (c : list Z) (i : nat) :
  first_max_index c i -> argmax c = Some i.
Proof.
  intros (Hi & Hmax & Hfirst).
  destruct (argmax_some c) as [r Hr]; [intros ->; simpl in Hi; lia|].
  destruct (argmax_spec c r Hr) as (Hrl & Hrmax & Hrfirst).
  destruct (Nat.lt_trichotomy r i) as [Hlt | [-> | Hgt]]; [|exact Hr|].
  - specialize (Hfirst r Hlt). specialize (Hrmax i Hi). lia.
  - specialize (Hrfirst i Hgt). specialize (Hmax r Hrl). lia.
Qed.

Lemma corr_at_silent (x y : waveform) (k : Z) :
  (forall i, sample x i = 0) \/ (forall i, sample y i = 0) -> corr_at x y k = 0.
Proof.
  intros H. unfold corr_at. apply zsum_zero. intros l _.
  destruct H as [H | H]; rewrite H; lia.
Qed.

(** X5: when one of the two tracks is silent (all samples zero) every
    correlation value is zero and the first index wins: the lag is
    [-(len(audio2) - 1)], the most negative one. *)
Theorem find_offset_silent_track (x y : waveform) :
  x <> [] -> y <> [] ->
  (forall i, sample x i = 0) \/ (forall i, sample y i = 0) ->
  find_offset x y = Some (- (Z.of_nat (length y) - 1)).
Proof.
  intros Hx Hy Hs. pose proof (length_correlate x y Hx Hy) as Hlen.
  assert (Hpos : (0 < length x + length y - 1)%nat)
    by (destruct x; [congruence|]; destruct y; [congruence|]; simpl; lia).
  assert (Hz : forall j, (j < length (correlate x y))%nat -> nth j (correlate x y) 0 = 0).
  { intros j Hj. rewrite nth_correlate by (assumption || lia). apply corr_at_silent, Hs. }
  unfold find_offset. rewrite (argmax_first_max _ 0%nat).
  - f_equal. lia.
  - split; [lia|]. split; [|intros j Hj; lia].
    intros j Hj. rewrite !Hz by lia. lia.
Qed.

Lemma find_offset_silent_track_witness :
  find_offset [0; 0; 0] [2; -1; 4] = Some (- (Z.of_nat (length [2; -1; 4]) - 1)).
Proof.
  apply (find_offset_silent_track [0; 0; 0] [2; -1; 4]); [discriminate | discriminate |].
  left. intros i. unfold sample. destruct (i <? 0); [reflexivity|].
  destruct (Z.to_nat i) as [|[|[|[|n]]]]; reflexivity.
Defined.

(** ** Gain *)







(** ** Padding and the lag *)







(** Without a positive correlation value the padding can move the lag. *)
Example padding_moves_lag :
  find_offset [1; 0] [-1] = Some 1 /\
  main_lag (fst (insert_padding [1; 0] [-1])) (snd (insert_padding [1; 0] [-1])) = Some (-1).
Proof. split; reflexivity. Qed.

(** ** Swapping the two tracks *)

Lemma corr_at_swap (x y : waveform) (k : Z) :
  corr_at y x k
  = corr_at x y (Z.of_nat (length x) + Z.of_nat (length y) - 2 - k).
Proof.
  unfold corr_at.
  set (c := k - Z.of_nat (length x) + 1).
  set (g := fun l => sample x l * sample y (l + c)).
  rewrite (zsum_ext _ (fun l => g (l + - c))).
  2:{ intros l _. unfold g. replace (l + - c + c) with l by lia.
      rewrite Z.mul_comm. f_equal. f_equal. unfold c. lia. }
  rewrite zsum_shift.
  rewrite (zsum_ext (fun l => sample x l * sample y (l - _ + _ - 1)) g).
  2:{ intros l _. unfold g. f_equal. f_equal. unfold c. lia. }
  set (lo := Z.min 0 (- c)).
  set (m := Z.to_nat (Z.max (Z.of_nat (length x)) (- c + Z.of_nat (length y)) - lo)).
  transitivity (zsum g lo m).
  - symmetry. apply zsum_window; try lia.
    intros j Hj. unfold g. rewrite (sample_outside y) by lia. lia.
  - apply zsum_window; try lia.
    intros j Hj. unfold g. rewrite (sample_outside x) by lia. lia.
Qed.

(** X8: when one index alone holds the largest correlation value, swapping
    the two tracks negates the lag. *)
Theorem find_offset_swap (x y : waveform) (i : nat) :
  (i < length (correlate x y))%nat ->
  (forall j, (j < length (correlate x y))%nat -> j <> i ->
             nth j (correlate x y) 0 < nth i (correlate x y) 0) ->
  find_offset x y = Some (Z.of_nat i - Z.of_nat (length y) + 1) /\
  find_offset y x = Some (- (Z.of_nat i - Z.of_nat (length y) + 1)).
Proof.
  intros Hi Hu.
  assert (Hx : x <> []) by (intros ->; simpl in Hi; lia).
  assert (Hy : y <> []) by (intros ->; destruct x; simpl in Hi; lia).
  pose proof (length_correlate x y Hx Hy) as Hlen.
  pose proof (length_correlate y x Hy Hx) as Hlen'.
  split.
  - unfold find_offset. rewrite (argmax_unique _ i Hi Hu). reflexivity.
  - unfold find_offset.
    rewrite (argmax_unique _ (length x + length y - 2 - i)%nat).
    + f_equal. lia.
    + lia.
    + intros j Hj Hne.
      rewrite !nth_correlate by (assumption || lia).
      rewrite (corr_at_swap x y (Z.of_nat j)).
      rewrite (corr_at_swap x y (Z.of_nat (length x + length y - 2 - i))).
      replace (Z.of_nat (length x) + Z.of_nat (length y) - 2
               - Z.of_nat (length x + length y - 2 - i)) with (Z.of_nat i) by lia.
      replace (Z.of_nat (length x) + Z.of_nat (length y) - 2 - Z.of_nat j)
        with (Z.of_nat (length x + length y - 2 - j)) by lia.
      rewrite <- !nth_correlate by (assumption || lia).
      apply Hu; lia.
Qed.

Lemma find_offset_swap_witness :
  correlate [0; 0; 3; 1] [3; 1; 0; 0] = [0; 0; 0; 0; 3; 10; 3] /\
  find_offset [0; 0; 3; 1] [3; 1; 0; 0] = Some 2 /\
  find_offset [3; 1; 0; 0] [0; 0; 3; 1] = Some (- 2).
Proof.
  split; [reflexivity|].
  apply (find_offset_swap [0; 0; 3; 1] [3; 1; 0; 0] 5).
  - vm_compute. lia.
  - intros j Hj Hne. change (length (correlate [0; 0; 3; 1] [3; 1; 0; 0])) with 7%nat in Hj.
    destruct j as [|[|[|[|[|[|[|j]]]]]]]; try lia; vm_compute; reflexivity.
Defined.

(** ** Whole seconds *)

Lemma round_half_even_exact (k q : Z) : 0 < q -> round_half_even (k * q) q = k.
Proof.
  intros Hq. unfold round_half_even.
  rewrite Z.div_mul by lia. rewrite Z.mod_mul by lia.
  assert (E : (2 * 0 ?= q) = Lt) by (apply Z.compare_lt_iff; lia).
  rewrite E. reflexivity.
Qed.

(** A quotient that is a whole number below [2^53] is a float: the division
    returns it unrounded, as [k * 2^j / 2^j]. *)
Lemma b64_div_exact (k d : Z) :
  0 <= k < 2 ^ 53 -> 0 < d ->
  exists j, 0 <= j /\ b64_div (k * d) d = Some (Frac (k * 2 ^ j) (2 ^ j)).
Proof.
  intros Hk Hd. unfold b64_div.
  destruct (k * d =? 0) eqn:E0.
  { apply Z.eqb_eq in E0. assert (k = 0) as -> by nia.
    exists 0. split; [lia | reflexivity]. }
  apply Z.eqb_neq in E0. assert (Hk0 : 0 < k) by nia.
  assert (Hlk : Z.log2 k < 53) by (apply Z.log2_lt_pow2; lia).
  pose proof (Z.log2_mul_above k d ltac:(lia) ltac:(lia)) as Hmul.
  set (e1 := Z.log2 (k * d) - Z.log2 d - 52) in *.
  assert (He1 : e1 <= 1) by (unfold e1; lia).
  set (e2 := if k * d * 2 ^ Z.max 0 (- e1) <? 2 ^ 52 * (d * 2 ^ Z.max 0 e1)
             then e1 - 1 else e1).
  assert (He2 : e2 <= 0).
  { unfold e2. destruct (Z.eq_dec e1 1) as [-> | Hne].
    - replace (k * d * 2 ^ Z.max 0 (- (1)) <? 2 ^ 52 * (d * 2 ^ Z.max 0 1)) with true; [lia|].
      symmetry. apply Z.ltb_lt. change (2 ^ Z.max 0 (- (1))) with 1.
      change (2 ^ Z.max 0 1) with 2. nia.
    - destruct (_ <? _); lia. }
  set (e := Z.max e2 (-1074)).
  assert (He : -1074 <= e <= 0) by (unfold e; lia).
  rewrite (Z.max_l 0 e) by lia. rewrite (Z.max_r 0 (- e)) by lia.
  change (2 ^ 0) with 1. rewrite !Z.mul_1_r.
  assert (Hp : 0 < 2 ^ (- e)) by (apply Z.pow_pos_nonneg; lia).
  replace (k * d * 2 ^ (- e)) with (k * 2 ^ (- e) * d) by lia.
  rewrite round_half_even_exact by lia.
  replace (971 <? e) with false by (symmetry; apply Z.ltb_ge; lia).
  replace (e =? 971) with false by (symmetry; apply Z.eqb_neq; lia).
  simpl. exists (- e). split; [lia | reflexivity].
Qed.

(** X9: a frame count of [k] whole seconds, with either sign, is rendered
    exactly: [k // 3600] hours, [k // 60 % 60] minutes, [k % 60] seconds and
    the decimals [.000]. *)
Theorem format_time_whole_seconds (k : Z) (sample_rate : positive) :
  0 <= k -> k * Z.pos sample_rate < 2 ^ 53 ->
  format_time (k * Z.pos sample_rate) sample_rate
  = Some (fmt_02 (k / 3600) +:+ ":" +:+ fmt_02 (k / 60 mod 60) +:+ ":"
          +:+ zfill 6 (str (k mod 60) +:+ ".000")) /\
  format_time (- (k * Z.pos sample_rate)) sample_rate
  = format_time (k * Z.pos sample_rate) sample_rate.
Proof.
  intros Hk Hb. split; [|unfold format_time, clock; rewrite Z.abs_opp; reflexivity].
  unfold format_time, clock. rewrite Z.abs_eq by lia.
  destruct (b64_div_exact k (Z.pos sample_rate)) as (j & Hj & ->); [nia | lia |].
  assert (Hp : 0 < 2 ^ j) by (apply Z.pow_pos_nonneg; lia).
  simpl fnum; simpl fden.
  rewrite Z.div_mul_cancel_r by lia.
  rewrite Z.div_div by lia. change (60 * 60) with 3600.
  unfold fmt_06_3f, millis. simpl fnum; simpl fden.
  rewrite Z.mul_mod_distr_r by lia.
  replace (1000 * (k mod 60 * 2 ^ j)) with (1000 * (k mod 60) * 2 ^ j) by lia.
  rewrite round_half_even_exact by lia.
  rewrite (Z.mul_comm 1000), Z.div_mul, Z.mod_mul by lia.
  reflexivity.
Qed.

Lemma format_time_whole_seconds_witness :
  format_time (7325 * Z.pos 48000) 48000 = Some "02:02:05.000" /\
  format_time (- (7325 * Z.pos 48000)) 48000 = format_time (7325 * Z.pos 48000) 48000.
Proof.
  destruct (format_time_whole_seconds 7325 48000) as [H1 H2];
    [lia | vm_compute; reflexivity |].
  split; [rewrite H1; vm_compute; reflexivity | exact H2].
Defined.

(** ** The footprint of a run *)

Section Footprint.

Variables (Add Del : string -> Prop).












End Footprint.





(** ** Probing *)

Lemma head_filter_first (ty : string) (l : list stream) :
  first_with ty l (head (filter (fun s => codec_type s = ty) l)).
Proof.
  induction l as [|x l IH]; [constructor|].
  rewrite filter_cons. destruct (decide (codec_type x = ty)) as [Hx | Hx].
  - simpl. exists [], l. repeat split; [exact Hx | constructor].
  - destruct (head (filter (fun s => codec_type s = ty) l)) as [s|]; simpl in *.
    + destruct IH as (pre & post & -> & Hs & Hpre).
      exists (x :: pre), post. repeat split; [exact Hs | constructor; assumption].
    + constructor; assumption.
Qed.

(** X11: when [get_stream_info] returns, ffprobe had returned 0 with a
    non-empty stream list, which is handed back whole; the video is the
    first stream of type "video" and the audio the first of type "audio",
    each [None] when the list has no stream of that type; the only trace is
    the probe. *)
Theorem get_stream_info_first (E : env) (path : string) (w w' : world)
    (l : list stream) (vs aus : option stream) :
  get_stream_info E path w = (w', inr (l, vs, aus)) ->
  (exists err, ffprobe E path = (0, err, Some l)) /\
  l <> [] /\
  first_with "video" l vs /\ first_with "audio" l aus /\
  w' = World (files w) (trace w ++ [Probe path]).
Proof.
  cbv [get_stream_info bind emit ret raise]. unfold select_streams.
  destruct (ffprobe E path) as [[rc err] out].
  destruct (rc =? 0) eqn:Hrc; simpl; [|discriminate].
  apply Z.eqb_eq in Hrc. subst rc.
  destruct out as [[|s ss]|]; try discriminate.
  intros [= <- <- <- <-].
  split; [exists err; reflexivity|]. split; [discriminate|].
  split; [apply head_filter_first|]. split; [apply head_filter_first | reflexivity].
Qed.

Lemma get_stream_info_first_witness :
  (exists err,
     ffprobe (Demo.machine [Demo.aac; Demo.hevc; Demo.h264] Demo.all_fine
                           Demo.late Demo.early) "/media/clip.mp4"
     = (0, err, Some [Demo.aac; Demo.hevc; Demo.h264])) /\
  [Demo.aac; Demo.hevc; Demo.h264] <> [] /\
  first_with "video" [Demo.aac; Demo.hevc; Demo.h264] (Some Demo.hevc) /\
  first_with "audio" [Demo.aac; Demo.hevc; Demo.h264] (Some Demo.aac) /\
  World ∅ [Probe "/media/clip.mp4"] = World (files (start ∅))
                                            (trace (start ∅) ++ [Probe "/media/clip.mp4"]).
Proof.
  apply (get_stream_info_first
           (Demo.machine [Demo.aac; Demo.hevc; Demo.h264] Demo.all_fine Demo.late Demo.early)
           "/media/clip.mp4" (start ∅)).
  reflexivity.
Defined.

(** X12: when ffprobe returns a non-zero code, or its output has no stream,
    the script stops on the exception of [get_stream_info] right after the
    probe, in check mode and outside it: nothing is created, loaded or
    printed.  The return code is looked at first. *)
Theorem probe_failure (E : env) (a : arguments) (fs : gset string)
    (rc : Z) (err : string) (out : option (list stream)) :
  ffprobe E (video a) = (rc, err, out) ->
  rc <> 0 \/ out = None \/ out = Some [] ->
  main E a (start fs)
  = (World fs [Probe (video a)],
     inl (Raise (ProbeError (if rc =? 0 then "No video stream found"
                             else "ffprobe encountered an error: " +:+ err)))).
Proof.
  intros Hp Hbad. run_flow. unfold select_streams. rewrite Hp.
  destruct (rc =? 0) eqn:Hrc; simpl; [|reflexivity].
  apply Z.eqb_eq in Hrc.
  destruct Hbad as [H | [-> | ->]]; [contradiction | reflexivity | reflexivity].
Qed.

Lemma probe_failure_witness :
  main unreadable (Demo.clip false) (start ∅)
  = (World ∅ [Probe "/media/clip.mp4"],
     inl (Raise (ProbeError
       "ffprobe encountered an error: clip.mp4: No such file or directory"))).
Proof.
  apply (probe_failure unreadable (Demo.clip false) ∅ 1
                       "clip.mp4: No such file or directory"
                       (Some [Demo.h264]) eq_refl).
  left. discriminate.
Defined.

(** X13: outside check mode a file without a video stream, or with an h264
    video and no audio stream, ends the run on a [TypeError] (the missing
    stream is [None] and is subscripted), after the destination directory
    was made. *)
Theorem missing_stream (E : env) (a : arguments) (fs : gset string)
    (l : list stream) (vs aus : option stream) :
  check a = false ->
  select_streams (ffprobe E (video a)) = inr (l, vs, aus) ->
  vs = None \/ (exists v, vs = Some v /\ codec_name v = "h264" /\ aus = None) ->
  main E a (start fs)
  = (World ({[dest_dir_of E a]} ∪ fs) [Probe (video a); Makedirs (dest_dir_of E a)],
     inl (Raise TypeError)).
Proof.
  intros Hc Hsel Hmiss. run_flow. rewrite Hsel, Hc. simpl.
  destruct Hmiss as [-> | (v & -> & Hv & ->)]; [reflexivity|].
  simpl. rewrite Hv. reflexivity.
Qed.

Lemma missing_stream_witness :
  main (Demo.machine [Demo.aac] Demo.all_fine Demo.late Demo.early)
       (Demo.clip false) (start ∅)
  = (World ({["/media/cut"]} ∪ ∅) [Probe "/media/clip.mp4"; Makedirs "/media/cut"],
     inl (Raise TypeError)).
Proof.
  apply (missing_stream (Demo.machine [Demo.aac] Demo.all_fine Demo.late Demo.early)
                        (Demo.clip false) ∅ [Demo.aac] None (Some Demo.aac)
                        eq_refl eq_refl).
  left. reflexivity.
Defined.



(** ** How the edit ends *)

(** X15: in the trim branch the return code of ffmpeg is not looked at: the
    script ends normally, with status 0, whatever the code, and the only
    file it may have added to the destination directory is the output. *)
Theorem trim_ignores_status (E : env) (a : arguments) (fs : gset string)
    (v : stream) (r : report) (rc : Z) (wrote : bool) :
  ready E a v r -> 0 <= r_lag r ->
  ffmpeg E (trim_of E a r) = Completed rc wrote ->
  main E a (start fs)
  = (World (if wrote
            then {[join E (dest_dir_of E a) (r_output_name r)]}
                 ∪ ({[dest_dir_of E a]} ∪ fs)
            else {[dest_dir_of E a]} ∪ fs)
           (prelude E a r ++ trim_plan E a r),
     inr tt) /\
  exit_code (snd (main E a (start fs))) = 0.
Proof.
  intros (Hc & (streams & au & Hsel & Hv & Hau) & Hr) Hlag Hrun.
  rewrite (main_reaches_align E a fs streams v au r Hc Hsel Hv Hau Hr).
  unfold align. destruct (r_lag r <? 0) eqn:E0; [apply Z.ltb_lt in E0; lia|].
  run_flow. fold (trim_of E a r). rewrite Hrun. unfold trim_plan.
  destruct wrote; simpl; rewrite <- ?app_assoc; split; reflexivity.
Qed.

Lemma trim_ignores_status_witness :
  ready (Demo.machine [Demo.h264; Demo.aac] (fun _ => Completed 1 false)
                      Demo.late Demo.early)
        (Demo.clip false) Demo.h264 Demo.late_report /\
  exit_code (snd (main (Demo.machine [Demo.h264; Demo.aac] (fun _ => Completed 1 false)
                                     Demo.late Demo.early)
                       (Demo.clip false) (start ∅))) = 0.
Proof.
  assert (Hr : ready (Demo.machine [Demo.h264; Demo.aac] (fun _ => Completed 1 false)
                                   Demo.late Demo.early)
                     (Demo.clip false) Demo.h264 Demo.late_report)
    by (apply demo_ready; vm_compute; reflexivity).
  split; [exact Hr|].
  assert (Hlag : 0 <= r_lag Demo.late_report) by (vm_compute; discriminate).
  apply (proj2 (trim_ignores_status _ _ ∅ _ _ 1 false Hr Hlag eq_refl)).
Defined.

(** X16: in the pad-and-concat branch with both commands returning, the end
    of the run depends on the padding video alone.  If the padding command
    wrote it, the script ends normally whatever the two return codes; if it
    did not (and no file was at that path), the concat command is still run
    and the script then stops on the [FileNotFoundError] of [os.remove]. *)
Theorem pad_outcome (E : env) (a : arguments) (fs : gset string)
    (v : stream) (r : report) (rc1 rc2 : Z) (wrote1 wrote2 : bool) :
  ready E a v r -> r_lag r < 0 ->
  ffmpeg E (padding_of E a v r) = Completed rc1 wrote1 ->
  ffmpeg E (concat_of E a r) = Completed rc2 wrote2 ->
  trace (fst (main E a (start fs))) = prelude E a r ++ pad_plan E a v r /\
  (wrote1 = true -> empty_video_path_of E a <> temp_name E ->
   snd (main E a (start fs)) = inr tt) /\
  (wrote1 = false ->
   empty_video_path_of E a ∉ fs ->
   empty_video_path_of E a <> dest_dir_of E a ->
   empty_video_path_of E a <> join E (dest_dir_of E a) (r_output_name r) ->
   snd (main E a (start fs)) = inl (Raise (FileNotFoundError (empty_video_path_of E a)))).
Proof.
  intros (Hc & (streams & au & Hsel & Hv & Hau) & Hr) Hlag Hp Hcc.
  rewrite (main_reaches_align E a fs streams v au r Hc Hsel Hv Hau Hr).
  unfold align. destruct (r_lag r <? 0) eqn:E0; [|apply Z.ltb_ge in E0; lia].
  run_flow.
  fold (dest_dir_of E a). fold (empty_video_path_of E a).
  fold (padding_of E a v r). fold (concat_of E a r).
  rewrite Hp, Hcc.
  assert (Hout1 : output_of (padding_of E a v r) = empty_video_path_of E a) by reflexivity.
  assert (Hout2 : output_of (concat_of E a r)
                  = join E (dest_dir_of E a) (r_output_name r)) by reflexivity.
  rewrite Hout1, Hout2.
  split; [|split].
  - destruct wrote1, wrote2; simpl; case_bool_decide; simpl;
      rewrite <- ?app_assoc; reflexivity.
  - intros -> Hne. destruct wrote2; simpl; case_bool_decide as Hin; simpl;
      try reflexivity; exfalso; apply Hin;
      rewrite ?elem_of_difference, ?elem_of_union, ?elem_of_singleton; tauto.
  - intros -> Hfs Hd Ho. destruct wrote2; simpl; case_bool_decide as Hin; simpl;
      try reflexivity; exfalso;
      rewrite ?elem_of_difference, ?elem_of_union, ?elem_of_singleton in Hin; tauto.
Qed.

Lemma pad_outcome_witness :
  ready (Demo.machine [Demo.h264; Demo.aac] (fun _ => Completed 1 false)
                      Demo.early Demo.late)
        (Demo.clip false) Demo.h264 Demo.early_report /\
  r_lag Demo.early_report < 0 /\
  snd (main (Demo.machine [Demo.h264; Demo.aac] (fun _ => Completed 1 false)
                          Demo.early Demo.late)
            (Demo.clip false) (start ∅))
  = inl (Raise (FileNotFoundError "/media/cut/clip_empty.mp4")).
Proof.
  assert (Hr : ready (Demo.machine [Demo.h264; Demo.aac] (fun _ => Completed 1 false)
                                   Demo.early Demo.late)
                     (Demo.clip false) Demo.h264 Demo.early_report)
    by (apply demo_ready; vm_compute; reflexivity).
  assert (Hlag : r_lag Demo.early_report < 0) by (vm_compute; reflexivity).
  split; [exact Hr|]. split; [exact Hlag|].
  apply (proj2 (proj2 (pad_outcome _ _ ∅ _ _ 1 1 false false Hr Hlag eq_refl eq_refl))
               eq_refl).
  - apply not_elem_of_empty.
  - vm_compute. discriminate.
  - vm_compute. discriminate.
Defined.

(** X17: once the padding command has returned, the temporary concat list
    does not outlive the run, however the concat step ends: the [with] block
    deletes it also when [subprocess.run] raises. *)
Theorem concat_list_removed (E : env) (a : arguments) (fs : gset string)
    (v : stream) (r : report) :
  ready E a v r -> r_lag r < 0 ->
  ffmpeg E (padding_of E a v r) <> SpawnFailed ->
  (temp_name E ∉ files (fst (main E a (start fs)))) /\
  In (TempClose (temp_name E)) (trace (fst (main E a (start fs)))).
Proof.
  intros (Hc & (streams & au & Hsel & Hv & Hau) & Hr) Hlag Hp.
  rewrite (main_reaches_align E a fs streams v au r Hc Hsel Hv Hau Hr).
  unfold align. destruct (r_lag r <? 0) eqn:E0; [|apply Z.ltb_ge in E0; lia].
  run_flow.
  fold (dest_dir_of E a). fold (empty_video_path_of E a).
  fold (padding_of E a v r). fold (concat_of E a r).
  destruct (ffmpeg E (padding_of E a v r)) as [rc1 wrote1|]; [|congruence].
  destruct (ffmpeg E (concat_of E a r)) as [rc2 wrote2|];
    destruct wrote1; try destruct wrote2; simpl; try case_bool_decide; simpl;
    (split;
     [ rewrite ?elem_of_difference, ?elem_of_union, ?elem_of_singleton; tauto
     | repeat (first [left; reflexivity | right]) ]).
Qed.

Lemma concat_list_removed_witness :
  ready (Demo.machine [Demo.h264; Demo.aac] Demo.concat_raises Demo.early Demo.late)
        (Demo.clip false) Demo.h264 Demo.early_report /\
  "/tmp/tmpk3v9.txt"
  ∉ files (fst (main (Demo.machine [Demo.h264; Demo.aac] Demo.concat_raises
                        Demo.early Demo.late)
                    (Demo.clip false) (start ∅))).
Proof.
  assert (Hr : ready (Demo.machine [Demo.h264; Demo.aac] Demo.concat_raises
                                   Demo.early Demo.late)
                     (Demo.clip false) Demo.h264 Demo.early_report)
    by (apply demo_ready; vm_compute; reflexivity).
  assert (Hlag : r_lag Demo.early_report < 0) by (vm_compute; reflexivity).
  split; [exact Hr|].
  apply (proj1 (concat_list_removed _ _ ∅ _ _ Hr Hlag ltac:(vm_compute; discriminate))).
Defined.

(** ** The report and the output name *)

Lemma align_extends (E : env) (a : arguments) (v : stream) (r : report) (w : world) :
  exists rest,
    trace (fst (align E a (Some v) (dest_dir_of E a)
                  (fst (splitext E (basename E (video a))))
                  (snd (splitext E (basename E (video a))))
                  (r_output_name r) (r_lag r) (r_ss r) (r_t r) w))
    = trace w ++ rest.
Proof.
  destruct (Z_lt_dec (r_lag r) 0) as [Hneg | Hpos].
  - destruct (align_pad E a v r w Hneg) as (n & _ & Htr & _). eexists. exact Htr.
  - eexists. apply align_trim. lia.
Qed.

(** X10: the name of the output file carries the fields of the start
    timecode the script printed, with the colons replaced by hyphens, between
    the stem of the video's name and its extension. *)
Theorem output_name_fields (E : env) (a : arguments) (fs : gset string)
    (v : stream) (r : report) :
  ready E a v r ->
  exists (hh mm sec : string) (rest : list event),
    r_ss r = hh +:+ ":" +:+ mm +:+ ":" +:+ sec /\
    r_output_name r
    = fst (splitext E (basename E (video a))) +:+ "_" +:+ hh +:+ "-" +:+ mm +:+ "-"
      +:+ sec +:+ snd (splitext E (basename E (video a))) /\
    trace (fst (main E a (start fs)))
    = [ Probe (video a); Makedirs (dest_dir_of E a); Load (video a); Load (audio a);
        Print ("Offset: " +:+ str (r_lag r) +:+ " " +:+ str (Z.pos sr));
        Print (r_ss r); Print (r_t r); Print (r_output_name r) ] ++ rest.
Proof.
  intros (Hc & (streams & au & Hsel & Hv & Hau) & Hr).
  rewrite (main_reaches_align E a fs streams v au r Hc Hsel Hv Hau Hr).
  destruct (align_extends E a v r (World ({[dest_dir_of E a]} ∪ fs) (prelude E a r)))
    as [rest Hrest].
  unfold report_of in Hr.
  destruct (insert_padding (load E (video a)) (load E (audio a))) as [p1 p2].
  destruct (main_lag p1 p2) as [lag|]; [|discriminate].
  unfold format_time in Hr at 1.
  destruct (clock lag sr) as [[[h m] s]|]; [|discriminate].
  destruct (format_time (Z.of_nat (length (load E (audio a)))) sr) as [t|]; [|discriminate].
  destruct (splitext E (basename E (video a))) as [video_name ext].
  injection Hr as <-. simpl in *.
  exists (fmt_02 h), (fmt_02 m), (fmt_06_3f s), rest.
  split; [reflexivity|]. split; [reflexivity|]. exact Hrest.
Qed.

Lemma output_name_fields_witness :
  ready (Demo.machine [Demo.h264; Demo.aac] Demo.all_fine Demo.late Demo.early)
        (Demo.clip false) Demo.h264 Demo.late_report /\
  exists (hh mm sec : string) (rest : list event),
    r_ss Demo.late_report = hh +:+ ":" +:+ mm +:+ ":" +:+ sec /\
    r_output_name Demo.late_report
    = fst (Demo.splitext (Demo.basename "/media/clip.mp4")) +:+ "_" +:+ hh +:+ "-"
      +:+ mm +:+ "-" +:+ sec +:+ snd (Demo.splitext (Demo.basename "/media/clip.mp4")) /\
    trace (fst (main (Demo.machine [Demo.h264; Demo.aac] Demo.all_fine Demo.late Demo.early)
                     (Demo.clip false) (start ∅)))
    = [ Probe "/media/clip.mp4"; Makedirs "/media/cut";
        Load "/media/clip.mp4"; Load "/media/take.wav";
        Print "Offset: 2 44100";
        Print "00:00:00.000"; Print "00:00:00.000"; Print "clip_00-00-00.000.mp4" ]
      ++ rest.
Proof.
  assert (Hr : ready (Demo.machine [Demo.h264; Demo.aac] Demo.all_fine Demo.late Demo.early)
                     (Demo.clip false) Demo.h264 Demo.late_report)
    by (apply demo_ready; vm_compute; reflexivity).
  split; [exact Hr|].
  apply (output_name_fields _ _ ∅ _ _ Hr).
Defined.

Lemma report_of_check (E : env) (a : arguments) (b : bool) :
  report_of E (Arguments (video a) (audio a) b) = report_of E a.
Proof. reflexivity. Qed.

(** X19: check mode is a faithful dry run: on the same two files it prints
    the lag and the two timecodes that the editing run prints, and stops
    there with status 0 and the disk untouched. *)
Theorem dry_run_agrees (E : env) (a : arguments) (fs : gset string)
    (v : stream) (r : report) :
  ready E a v r ->
  main E (Arguments (video a) (audio a) true) (start fs)
  = (World fs ([Probe (video a); Load (video a); Load (audio a)] ++ report_lines r),
     inl (Exit 0)) /\
  exists rest,
    trace (fst (main E a (start fs)))
    = [Probe (video a); Makedirs (dest_dir_of E a); Load (video a); Load (audio a)]
      ++ report_lines r ++ rest.
Proof.
  intros (Hc & (streams & au & Hsel & Hv & Hau) & Hr). split.
  - apply (main_check_run E (Arguments (video a) (audio a) true) fs
                          (streams, Some v, Some au) r eq_refl Hsel).
    rewrite report_of_check. exact Hr.
  - rewrite (main_reaches_align E a fs streams v au r Hc Hsel Hv Hau Hr).
    destruct (align_extends E a v r (World ({[dest_dir_of E a]} ∪ fs) (prelude E a r)))
      as [rest Hrest].
    exists (Print (r_output_name r) :: rest). rewrite Hrest. reflexivity.
Qed.

Lemma dry_run_agrees_witness :
  ready (Demo.machine [Demo.h264; Demo.aac] Demo.all_fine Demo.early Demo.late)
        (Demo.clip false) Demo.h264 Demo.early_report /\
  main (Demo.machine [Demo.h264; Demo.aac] Demo.all_fine Demo.early Demo.late)
       (Demo.clip true) (start ∅)
  = (World ∅ [Probe "/media/clip.mp4"; Load "/media/clip.mp4"; Load "/media/take.wav";
              Print "Offset: -2 44100"; Print "00:00:00.000"; Print "00:00:00.000"],
     inl (Exit 0)).
Proof.
  assert (Hr : ready (Demo.machine [Demo.h264; Demo.aac] Demo.all_fine Demo.early Demo.late)
                     (Demo.clip false) Demo.h264 Demo.early_report)
    by (apply demo_ready; vm_compute; reflexivity).
  split; [exact Hr|].
  apply (proj1 (dry_run_agrees _ _ ∅ _ _ Hr)).
Defined.
